(** * The SQLVM expression checker: type checking, type inference and
      constant folding of expression trees.

    The development embeds the checker package (checkExpr and the check
    function of every expression kind it dispatches to) as executable Rocq
    functions over an explicit diagnostics list, and proves properties of
    the folding and type-inference rules.

    Layout:
    - [decimal]: the arbitrary-precision decimal numbers the checker
      computes with;
    - [ast]: data types (major/minor encoding), three-valued booleans and
      expression nodes;
    - [errors]: the diagnostics records and the append-only list;
    - [checker]: the check functions, in the order of the source;
    - the vocabulary of the statements and the example inputs;
    - the properties, first for all inputs, then at the examples. *)

From Stdlib Require Import ZArith List Bool Lia.
From Stdlib Require Import Strings.String Strings.Byte.
Import ListNotations.
Open Scope Z_scope.

(* ================================================================== *)
(** ** Decimal numbers *)

Module decimal.

(** Modelled from the spec: the arbitrary-precision decimal type of the
    external decimal package, missing from the sources at hand, together
    with the operations on it that the checker calls (all of this module).
    A number is [value * 10 ^ exp]; comparisons and arithmetic are the
    mathematical ones and are computed by bringing both operands to the
    smaller exponent. *)
Record Decimal : Type := New { value : Z; exp : Z }.

Definition Zero : Decimal := New 0 0.

(** [Rescale d e] re-expresses [d] with exponent [e]; digits below
    [10 ^ e] are dropped (truncation towards zero). *)
Definition Rescale (d : Decimal) (e : Z) : Decimal :=
  if e <=? exp d
  then New (value d * 10 ^ (exp d - e)) e
  else New (Z.quot (value d) (10 ^ (e - exp d))) e.

Definition Cmp (d1 d2 : Decimal) : comparison :=
  let e := Z.min (exp d1) (exp d2) in
  value (Rescale d1 e) ?= value (Rescale d2 e).

Definition Equal (d1 d2 : Decimal) : bool :=
  match Cmp d1 d2 with Eq => true | _ => false end.

Definition LessThan (d1 d2 : Decimal) : bool :=
  match Cmp d1 d2 with Lt => true | _ => false end.

Definition LessThanOrEqual (d1 d2 : Decimal) : bool :=
  match Cmp d1 d2 with Gt => false | _ => true end.

Definition GreaterThan (d1 d2 : Decimal) : bool :=
  match Cmp d1 d2 with Gt => true | _ => false end.

Definition GreaterThanOrEqual (d1 d2 : Decimal) : bool :=
  match Cmp d1 d2 with Lt => false | _ => true end.

Definition IsZero (d : Decimal) : bool := value d =? 0.

Definition Neg (d : Decimal) : Decimal := New (- value d) (exp d).

Definition Add (d1 d2 : Decimal) : Decimal :=
  let e := Z.min (exp d1) (exp d2) in
  New (value (Rescale d1 e) + value (Rescale d2 e)) e.

Definition Sub (d1 d2 : Decimal) : Decimal :=
  let e := Z.min (exp d1) (exp d2) in
  New (value (Rescale d1 e) - value (Rescale d2 e)) e.

Definition Mul (d1 d2 : Decimal) : Decimal :=
  New (value d1 * value d2) (exp d1 + exp d2).

(** [QuoRem d d2 precision] is the quotient truncated to [precision]
    fractional digits together with the remainder, so that
    [d = d2 * q + r].  The library panics on a zero divisor: [None]. *)
Definition QuoRem (d d2 : Decimal) (precision : Z) : option (Decimal * Decimal) :=
  if value d2 =? 0 then None
  else
    let scale := - precision in
    let e := exp d - exp d2 - scale in
    let '(aa, bb, scalerest) :=
      if e <? 0
      then (value d, value d2 * 10 ^ (- e), exp d)
      else (value d * 10 ^ e, value d2, scale + exp d2) in
    Some (New (Z.quot aa bb) scale, New (Z.rem aa bb) scalerest).

(** [Truncate d precision] drops the digits after the first [precision]
    fractional ones. *)
Definition Truncate (d : Decimal) (precision : Z) : Decimal :=
  if (0 <=? precision) && (exp d <? - precision)
  then Rescale d (- precision)
  else d.

(** [Round d places] rounds half away from zero to [places] fractional
    digits. *)
Definition Round (d : Decimal) (places : Z) : Decimal :=
  let ret := Rescale d (- places - 1) in
  let v := if value ret <? 0 then value ret - 5 else value ret + 5 in
  let q := v / 10 in
  let m := v mod 10 in
  let q' := if (q <? 0) && negb (m =? 0) then q + 1 else q in
  New q' (exp ret + 1).

End decimal.

Import decimal.

(* ================================================================== *)
(** ** The abstract syntax: data types, boolean values, nodes *)

Module ast.

(** *** Data types *)

(** Modelled from the spec: a data type is a 16-bit ordinal, the major
    (category) in the high byte and the minor (size or precision) in the low
    byte.  The type declarations of the ast package are missing from the
    sources at hand; the numbering of the majors below is the package's
    enumeration order, with the two fixed-point families each taking a range
    of 32 majors (one per byte width). *)
Definition DataTypeMajor := Z.
Definition DataTypeMinor := Z.
Definition DataType := Z.

Definition DataTypeMajorPending : DataTypeMajor := 0.
Definition DataTypeMajorSpecial : DataTypeMajor := 1.
Definition DataTypeMajorBool : DataTypeMajor := 2.
Definition DataTypeMajorAddress : DataTypeMajor := 3.
Definition DataTypeMajorInt : DataTypeMajor := 4.
Definition DataTypeMajorUint : DataTypeMajor := 5.
Definition DataTypeMajorFixedBytes : DataTypeMajor := 6.
Definition DataTypeMajorDynamicBytes : DataTypeMajor := 7.
Definition DataTypeMajorFixed : DataTypeMajor := 16.
Definition DataTypeMajorUfixed : DataTypeMajor := 48.

Definition DataTypeMinorDontCare : DataTypeMinor := 0.
Definition DataTypeMinorSpecialNull : DataTypeMinor := 0.

(** Conversions to the 8-bit and 16-bit unsigned types wrap around. *)
Definition uint8 (x : Z) : Z := x mod 256.
Definition uint16 (x : Z) : Z := x mod 65536.

Definition ComposeDataType (major : DataTypeMajor) (minor : DataTypeMinor) : DataType :=
  Z.lor (Z.shiftl (uint8 major) 8) (uint8 minor).

Definition DecomposeDataType (dt : DataType) : DataTypeMajor * DataTypeMinor :=
  (Z.shiftr (uint16 dt) 8, Z.land (uint16 dt) 255).

Definition DataTypePending : DataType :=
  ComposeDataType DataTypeMajorPending DataTypeMinorDontCare.
Definition DataTypeBad : DataType := 65535.
Definition DataTypeNull : DataType :=
  ComposeDataType DataTypeMajorSpecial DataTypeMinorSpecialNull.

Definition IsFixedRange (major : DataTypeMajor) : bool :=
  (DataTypeMajorFixed <=? major) && (major - DataTypeMajorFixed <=? 31).

Definition IsUfixedRange (major : DataTypeMajor) : bool :=
  (DataTypeMajorUfixed <=? major) && (major - DataTypeMajorUfixed <=? 31).

Definition Pending (dt : DataType) : bool := dt =? DataTypePending.

Definition DataType_Equal (dt dt' : DataType) : bool := dt =? dt'.

(** Modelled from the spec: the bounds of a bounded numeric type.  Signed
    integers of [n] bytes range over [-2^(8n-1), 2^(8n-1)-1], unsigned ones
    over [0, 2^(8n)-1]; a fixed-point type has the bounds of the integer type
    of its width, scaled down by its number of fractional digits.  [None]
    for a major without bounds. *)
Definition GetMinMax (dt : DataType) : option (Decimal * Decimal) :=
  let '(major, minor) := DecomposeDataType dt in
  if major =? DataTypeMajorInt then
    let bits := 8 * (minor + 1) in
    Some (New (- 2 ^ (bits - 1)) 0, New (2 ^ (bits - 1) - 1) 0)
  else if major =? DataTypeMajorUint then
    let bits := 8 * (minor + 1) in
    Some (New 0 0, New (2 ^ bits - 1) 0)
  else if IsFixedRange major then
    let bits := 8 * (major - DataTypeMajorFixed + 1) in
    Some (New (- 2 ^ (bits - 1)) (- minor), New (2 ^ (bits - 1) - 1) (- minor))
  else if IsUfixedRange major then
    let bits := 8 * (major - DataTypeMajorUfixed + 1) in
    Some (New 0 (- minor), New (2 ^ bits - 1) (- minor))
  else None.

(** Big-endian bytes of a number below [256 ^ size]. *)
Fixpoint bigEndian (size : nat) (v : Z) : list byte :=
  match size with
  | O => []
  | S k =>
      bigEndian k (v / 256)
        ++ [match Byte.of_N (Z.to_N (v mod 256)) with
            | Some b => b
            | None => x00
            end]
  end.

Definition fromBigEndian (b : list byte) : Z :=
  fold_left (fun acc x => acc * 256 + Z.of_N (Byte.to_N x)) b 0.

(** Modelled from the spec: the exact encoding of a number into the
    fixed-width bytes of a numeric type (two's complement, big endian; a
    fixed-point number is stored as its value scaled up by the number of
    fractional digits) and its inverse.  A value outside the range of the
    type loses its high bits: decoding what was encoded is the crop. *)
Definition DecimalEncode (dt : DataType) (d : Decimal) : option (list byte) :=
  let '(major, minor) := DecomposeDataType dt in
  if (major =? DataTypeMajorInt) || (major =? DataTypeMajorUint) then
    let size := minor + 1 in
    Some (bigEndian (Z.to_nat size) (value (Rescale d 0) mod 2 ^ (8 * size)))
  else if IsFixedRange major then
    let size := major - DataTypeMajorFixed + 1 in
    Some (bigEndian (Z.to_nat size) (value (Rescale d (- minor)) mod 2 ^ (8 * size)))
  else if IsUfixedRange major then
    let size := major - DataTypeMajorUfixed + 1 in
    Some (bigEndian (Z.to_nat size) (value (Rescale d (- minor)) mod 2 ^ (8 * size)))
  else None.

Definition signedOf (bits u : Z) : Z :=
  if 2 ^ (bits - 1) <=? u then u - 2 ^ bits else u.

Definition DecimalDecode (dt : DataType) (b : list byte) : option Decimal :=
  let '(major, minor) := DecomposeDataType dt in
  let u := fromBigEndian b in
  if major =? DataTypeMajorInt then
    Some (New (signedOf (8 * (minor + 1)) u) 0)
  else if major =? DataTypeMajorUint then
    Some (New u 0)
  else if IsFixedRange major then
    Some (New (signedOf (8 * (major - DataTypeMajorFixed + 1)) u) (- minor))
  else if IsUfixedRange major then
    Some (New u (- minor))
  else None.

(** *** Three-valued booleans *)

(** Modelled from the spec: the boolean value of SQL three-valued logic,
    with its connectives and comparisons (down to [BoolValue_LessOrEqual]).
    The declarations are missing from the sources at hand.  The zero value of
    the type is not a boolean at all ([BoolValueInvalid]): the checker uses
    it for "no constant here" and tests it with [Valid]; [Unknown] is a
    valid value (the IS operator replaces an invalid value by Unknown and
    then takes the branch guarded by [Valid]). *)
Inductive BoolValue : Type :=
| BoolValueInvalid
| BoolValueTrue
| BoolValueFalse
| BoolValueUnknown.

Definition BoolValue_eqb (v1 v2 : BoolValue) : bool :=
  match v1, v2 with
  | BoolValueInvalid, BoolValueInvalid
  | BoolValueTrue, BoolValueTrue
  | BoolValueFalse, BoolValueFalse
  | BoolValueUnknown, BoolValueUnknown => true
  | _, _ => false
  end.

Definition Valid (v : BoolValue) : bool :=
  match v with BoolValueInvalid => false | _ => true end.

Definition NewBoolValueFromBool (b : bool) : BoolValue :=
  if b then BoolValueTrue else BoolValueFalse.

(** The connectives of three-valued logic.  They are only called on valid
    values; on the invalid value they stay invalid. *)
Definition And (v1 v2 : BoolValue) : BoolValue :=
  match v1, v2 with
  | BoolValueInvalid, _ | _, BoolValueInvalid => BoolValueInvalid
  | BoolValueFalse, _ | _, BoolValueFalse => BoolValueFalse
  | BoolValueTrue, BoolValueTrue => BoolValueTrue
  | _, _ => BoolValueUnknown
  end.

Definition Or (v1 v2 : BoolValue) : BoolValue :=
  match v1, v2 with
  | BoolValueInvalid, _ | _, BoolValueInvalid => BoolValueInvalid
  | BoolValueTrue, _ | _, BoolValueTrue => BoolValueTrue
  | BoolValueFalse, BoolValueFalse => BoolValueFalse
  | _, _ => BoolValueUnknown
  end.

Definition Not (v : BoolValue) : BoolValue :=
  match v with
  | BoolValueTrue => BoolValueFalse
  | BoolValueFalse => BoolValueTrue
  | v => v
  end.

(** Comparisons of booleans: False is below True, and a comparison with
    Unknown is Unknown. *)
Definition compareBool (f : bool -> bool -> bool) (v1 v2 : BoolValue) : BoolValue :=
  match v1, v2 with
  | BoolValueInvalid, _ | _, BoolValueInvalid => BoolValueInvalid
  | BoolValueUnknown, _ | _, BoolValueUnknown => BoolValueUnknown
  | BoolValueTrue, BoolValueTrue => NewBoolValueFromBool (f true true)
  | BoolValueTrue, BoolValueFalse => NewBoolValueFromBool (f true false)
  | BoolValueFalse, BoolValueTrue => NewBoolValueFromBool (f false true)
  | BoolValueFalse, BoolValueFalse => NewBoolValueFromBool (f false false)
  end.

Definition BoolValue_Equal := compareBool Bool.eqb.
Definition BoolValue_NotEqual := compareBool (fun a b => negb (Bool.eqb a b)).
Definition BoolValue_Greater := compareBool (fun a b => a && negb b).
Definition BoolValue_GreaterOrEqual := compareBool (fun a b => a || negb b).
Definition BoolValue_Less := compareBool (fun a b => negb a && b).
Definition BoolValue_LessOrEqual := compareBool (fun a b => negb a || b).

(** *** Expression nodes *)

(** The source span of a node: position, length and the token text. *)
Record NodeBase : Type := mkNodeBase {
  Position : Z;
  Length : Z;
  Token : list byte
}.

(** The zero value of a freshly allocated node. *)
Definition emptyBase : NodeBase := mkNodeBase 0 0 [].

(** Modelled from the spec: the expression nodes.  The struct declarations
    are missing from the sources at hand; the fields are the ones the check
    functions read and write.  Boolean and address constants and the
    operators that produce a boolean carry no type field: their type is
    fixed (the checker never sets it and reads it with GetType).  The nodes
    below are the value leaves, identifiers, the four unary operators and
    the logical, relational, concatenation and arithmetic binary operators;
    IS, LIKE, IN, CAST and function calls are left out, no property below
    being about them.  The accessors that follow ([GetBase] to [SetSubject])
    are the methods of the node interfaces. *)
Inductive ExprNode : Type :=
| IdentifierNode (b : NodeBase) (ty : DataType) (Name : list byte) (Desc : option nat)
| BoolValueNode (b : NodeBase) (V : BoolValue)
| AddressValueNode (b : NodeBase) (V : list byte)
| IntegerValueNode (b : NodeBase) (ty : DataType) (IsAddress : bool) (V : Decimal)
| DecimalValueNode (b : NodeBase) (ty : DataType) (V : Decimal)
| BytesValueNode (b : NodeBase) (ty : DataType) (V : list byte)
| NullValueNode (b : NodeBase) (ty : DataType)
| PosOperatorNode (b : NodeBase) (ty : DataType) (Target : ExprNode)
| NegOperatorNode (b : NodeBase) (ty : DataType) (Target : ExprNode)
| NotOperatorNode (b : NodeBase) (Target : ExprNode)
| ParenOperatorNode (b : NodeBase) (ty : DataType) (Target : ExprNode)
| AndOperatorNode (b : NodeBase) (Object Subject : ExprNode)
| OrOperatorNode (b : NodeBase) (Object Subject : ExprNode)
| GreaterOrEqualOperatorNode (b : NodeBase) (Object Subject : ExprNode)
| LessOrEqualOperatorNode (b : NodeBase) (Object Subject : ExprNode)
| NotEqualOperatorNode (b : NodeBase) (Object Subject : ExprNode)
| EqualOperatorNode (b : NodeBase) (Object Subject : ExprNode)
| GreaterOperatorNode (b : NodeBase) (Object Subject : ExprNode)
| LessOperatorNode (b : NodeBase) (Object Subject : ExprNode)
| ConcatOperatorNode (b : NodeBase) (ty : DataType) (Object Subject : ExprNode)
| AddOperatorNode (b : NodeBase) (ty : DataType) (Object Subject : ExprNode)
| SubOperatorNode (b : NodeBase) (ty : DataType) (Object Subject : ExprNode)
| MulOperatorNode (b : NodeBase) (ty : DataType) (Object Subject : ExprNode)
| DivOperatorNode (b : NodeBase) (ty : DataType) (Object Subject : ExprNode)
| ModOperatorNode (b : NodeBase) (ty : DataType) (Object Subject : ExprNode).

Definition DataTypeBool : DataType :=
  ComposeDataType DataTypeMajorBool DataTypeMinorDontCare.
Definition DataTypeAddress : DataType :=
  ComposeDataType DataTypeMajorAddress DataTypeMinorDontCare.

Definition GetBase (n : ExprNode) : NodeBase :=
  match n with
  | IdentifierNode b _ _ _ | BoolValueNode b _ | AddressValueNode b _
  | IntegerValueNode b _ _ _ | DecimalValueNode b _ _ | BytesValueNode b _ _
  | NullValueNode b _ | PosOperatorNode b _ _ | NegOperatorNode b _ _
  | NotOperatorNode b _ | ParenOperatorNode b _ _
  | AndOperatorNode b _ _ | OrOperatorNode b _ _
  | GreaterOrEqualOperatorNode b _ _ | LessOrEqualOperatorNode b _ _
  | NotEqualOperatorNode b _ _ | EqualOperatorNode b _ _
  | GreaterOperatorNode b _ _ | LessOperatorNode b _ _
  | ConcatOperatorNode b _ _ _ | AddOperatorNode b _ _ _
  | SubOperatorNode b _ _ _ | MulOperatorNode b _ _ _
  | DivOperatorNode b _ _ _ | ModOperatorNode b _ _ _ => b
  end.

Definition SetBase (n : ExprNode) (b : NodeBase) : ExprNode :=
  match n with
  | IdentifierNode _ t x d => IdentifierNode b t x d
  | BoolValueNode _ v => BoolValueNode b v
  | AddressValueNode _ v => AddressValueNode b v
  | IntegerValueNode _ t a v => IntegerValueNode b t a v
  | DecimalValueNode _ t v => DecimalValueNode b t v
  | BytesValueNode _ t v => BytesValueNode b t v
  | NullValueNode _ t => NullValueNode b t
  | PosOperatorNode _ t x => PosOperatorNode b t x
  | NegOperatorNode _ t x => NegOperatorNode b t x
  | NotOperatorNode _ x => NotOperatorNode b x
  | ParenOperatorNode _ t x => ParenOperatorNode b t x
  | AndOperatorNode _ x y => AndOperatorNode b x y
  | OrOperatorNode _ x y => OrOperatorNode b x y
  | GreaterOrEqualOperatorNode _ x y => GreaterOrEqualOperatorNode b x y
  | LessOrEqualOperatorNode _ x y => LessOrEqualOperatorNode b x y
  | NotEqualOperatorNode _ x y => NotEqualOperatorNode b x y
  | EqualOperatorNode _ x y => EqualOperatorNode b x y
  | GreaterOperatorNode _ x y => GreaterOperatorNode b x y
  | LessOperatorNode _ x y => LessOperatorNode b x y
  | ConcatOperatorNode _ t x y => ConcatOperatorNode b t x y
  | AddOperatorNode _ t x y => AddOperatorNode b t x y
  | SubOperatorNode _ t x y => SubOperatorNode b t x y
  | MulOperatorNode _ t x y => MulOperatorNode b t x y
  | DivOperatorNode _ t x y => DivOperatorNode b t x y
  | ModOperatorNode _ t x y => ModOperatorNode b t x y
  end.

Definition GetPosition (n : ExprNode) : Z := Position (GetBase n).
Definition GetLength (n : ExprNode) : Z := Length (GetBase n).
Definition GetToken (n : ExprNode) : list byte := Token (GetBase n).

Definition SetPosition (n : ExprNode) (p : Z) : ExprNode :=
  SetBase n (mkNodeBase p (Length (GetBase n)) (Token (GetBase n))).
Definition SetLength (n : ExprNode) (l : Z) : ExprNode :=
  SetBase n (mkNodeBase (Position (GetBase n)) l (Token (GetBase n))).
Definition SetToken (n : ExprNode) (t : list byte) : ExprNode :=
  SetBase n (mkNodeBase (Position (GetBase n)) (Length (GetBase n)) t).

Definition GetType (n : ExprNode) : DataType :=
  match n with
  | IdentifierNode _ t _ _ | IntegerValueNode _ t _ _ | DecimalValueNode _ t _
  | BytesValueNode _ t _ | NullValueNode _ t
  | PosOperatorNode _ t _ | NegOperatorNode _ t _ | ParenOperatorNode _ t _
  | ConcatOperatorNode _ t _ _ | AddOperatorNode _ t _ _
  | SubOperatorNode _ t _ _ | MulOperatorNode _ t _ _
  | DivOperatorNode _ t _ _ | ModOperatorNode _ t _ _ => t
  | AddressValueNode _ _ => DataTypeAddress
  | BoolValueNode _ _ | NotOperatorNode _ _
  | AndOperatorNode _ _ _ | OrOperatorNode _ _ _
  | GreaterOrEqualOperatorNode _ _ _ | LessOrEqualOperatorNode _ _ _
  | NotEqualOperatorNode _ _ _ | EqualOperatorNode _ _ _
  | GreaterOperatorNode _ _ _ | LessOperatorNode _ _ _ => DataTypeBool
  end.

(** SetType on a node of fixed type has nothing to store. *)
Definition SetType (n : ExprNode) (t : DataType) : ExprNode :=
  match n with
  | IdentifierNode b _ x d => IdentifierNode b t x d
  | IntegerValueNode b _ a v => IntegerValueNode b t a v
  | DecimalValueNode b _ v => DecimalValueNode b t v
  | BytesValueNode b _ v => BytesValueNode b t v
  | NullValueNode b _ => NullValueNode b t
  | PosOperatorNode b _ x => PosOperatorNode b t x
  | NegOperatorNode b _ x => NegOperatorNode b t x
  | ParenOperatorNode b _ x => ParenOperatorNode b t x
  | ConcatOperatorNode b _ x y => ConcatOperatorNode b t x y
  | AddOperatorNode b _ x y => AddOperatorNode b t x y
  | SubOperatorNode b _ x y => SubOperatorNode b t x y
  | MulOperatorNode b _ x y => MulOperatorNode b t x y
  | DivOperatorNode b _ x y => DivOperatorNode b t x y
  | ModOperatorNode b _ x y => ModOperatorNode b t x y
  | n => n
  end.

(** The Valuer interface: the constant leaves. *)
Definition isValuer (n : ExprNode) : bool :=
  match n with
  | BoolValueNode _ _ | AddressValueNode _ _ | IntegerValueNode _ _ _ _
  | DecimalValueNode _ _ _ | BytesValueNode _ _ _ | NullValueNode _ _ => true
  | _ => false
  end.

(** The UnaryOperator interface. *)
Definition GetTarget (n : ExprNode) : option ExprNode :=
  match n with
  | PosOperatorNode _ _ x | NegOperatorNode _ _ x | NotOperatorNode _ x
  | ParenOperatorNode _ _ x => Some x
  | _ => None
  end.

Definition SetTarget (n : ExprNode) (x : ExprNode) : ExprNode :=
  match n with
  | PosOperatorNode b t _ => PosOperatorNode b t x
  | NegOperatorNode b t _ => NegOperatorNode b t x
  | NotOperatorNode b _ => NotOperatorNode b x
  | ParenOperatorNode b t _ => ParenOperatorNode b t x
  | n => n
  end.

(** The BinaryOperator interface. *)
Definition GetObject (n : ExprNode) : option ExprNode :=
  match n with
  | AndOperatorNode _ x _ | OrOperatorNode _ x _
  | GreaterOrEqualOperatorNode _ x _ | LessOrEqualOperatorNode _ x _
  | NotEqualOperatorNode _ x _ | EqualOperatorNode _ x _
  | GreaterOperatorNode _ x _ | LessOperatorNode _ x _
  | ConcatOperatorNode _ _ x _ | AddOperatorNode _ _ x _
  | SubOperatorNode _ _ x _ | MulOperatorNode _ _ x _
  | DivOperatorNode _ _ x _ | ModOperatorNode _ _ x _ => Some x
  | _ => None
  end.

Definition GetSubject (n : ExprNode) : option ExprNode :=
  match n with
  | AndOperatorNode _ _ y | OrOperatorNode _ _ y
  | GreaterOrEqualOperatorNode _ _ y | LessOrEqualOperatorNode _ _ y
  | NotEqualOperatorNode _ _ y | EqualOperatorNode _ _ y
  | GreaterOperatorNode _ _ y | LessOperatorNode _ _ y
  | ConcatOperatorNode _ _ _ y | AddOperatorNode _ _ _ y
  | SubOperatorNode _ _ _ y | MulOperatorNode _ _ _ y
  | DivOperatorNode _ _ _ y | ModOperatorNode _ _ _ y => Some y
  | _ => None
  end.

Definition SetObject (n : ExprNode) (x : ExprNode) : ExprNode :=
  match n with
  | AndOperatorNode b _ y => AndOperatorNode b x y
  | OrOperatorNode b _ y => OrOperatorNode b x y
  | GreaterOrEqualOperatorNode b _ y => GreaterOrEqualOperatorNode b x y
  | LessOrEqualOperatorNode b _ y => LessOrEqualOperatorNode b x y
  | NotEqualOperatorNode b _ y => NotEqualOperatorNode b x y
  | EqualOperatorNode b _ y => EqualOperatorNode b x y
  | GreaterOperatorNode b _ y => GreaterOperatorNode b x y
  | LessOperatorNode b _ y => LessOperatorNode b x y
  | ConcatOperatorNode b t _ y => ConcatOperatorNode b t x y
  | AddOperatorNode b t _ y => AddOperatorNode b t x y
  | SubOperatorNode b t _ y => SubOperatorNode b t x y
  | MulOperatorNode b t _ y => MulOperatorNode b t x y
  | DivOperatorNode b t _ y => DivOperatorNode b t x y
  | ModOperatorNode b t _ y => ModOperatorNode b t x y
  | n => n
  end.

Definition SetSubject (n : ExprNode) (y : ExprNode) : ExprNode :=
  match n with
  | AndOperatorNode b x _ => AndOperatorNode b x y
  | OrOperatorNode b x _ => OrOperatorNode b x y
  | GreaterOrEqualOperatorNode b x _ => GreaterOrEqualOperatorNode b x y
  | LessOrEqualOperatorNode b x _ => LessOrEqualOperatorNode b x y
  | NotEqualOperatorNode b x _ => NotEqualOperatorNode b x y
  | EqualOperatorNode b x _ => EqualOperatorNode b x y
  | GreaterOperatorNode b x _ => GreaterOperatorNode b x y
  | LessOperatorNode b x _ => LessOperatorNode b x y
  | ConcatOperatorNode b t x _ => ConcatOperatorNode b t x y
  | AddOperatorNode b t x _ => AddOperatorNode b t x y
  | SubOperatorNode b t x _ => SubOperatorNode b t x y
  | MulOperatorNode b t x _ => MulOperatorNode b t x y
  | DivOperatorNode b t x _ => DivOperatorNode b t x y
  | ModOperatorNode b t x _ => ModOperatorNode b t x y
  | n => n
  end.

End ast.

Import ast.

(* ================================================================== *)
(** ** Diagnostics *)

Module errors.

(** Modelled from the spec: a diagnostics entry is (position, length,
    category, code, severity, origin function, message); the declarations of
    the errors package are missing from the sources at hand.  The zero
    category and the zero code ([ErrorCategoryNil], [ErrorCodeNil]) are what
    warnings and notes carry. *)
Inductive ErrorCategory : Type :=
| ErrorCategoryNil
| ErrorCategorySemantic.

Inductive ErrorCode : Type :=
| ErrorCodeNil
| ErrorCodeTypeError
| ErrorCodeNonConstantExpression
| ErrorCodeColumnNotFound
| ErrorCodeConstantTooLong
| ErrorCodeOverflow
| ErrorCodeInvalidAddressChecksum
| ErrorCodeDividedByZero.

Inductive ErrorSeverity : Type :=
| ErrorSeverityError
| ErrorSeverityWarning
| ErrorSeverityNote.

(** The message of an entry is a formatted string in the source; it is
    kept here as its format (one constructor per format string) applied to
    its arguments. *)
Inductive Message : Type :=
| MsgExpectButGiven (dtExpected dtGiven : DataType)
| MsgNotAConstant (name : list byte)
| MsgCannotFindColumn (name : list byte)
| MsgExpectButValueGiven (dt : DataType) (given : string)
| MsgConstantTooLong (token : list byte)
| MsgOverflows (token : list byte) (v : Decimal) (dt : DataType)
| MsgRangeIs (dt : DataType) (min max : Decimal)
| MsgOverflowsConverted (token : list byte) (from : Decimal) (dt : DataType) (to : Decimal)
| MsgNotAnAddressConstant (dt : DataType) (token : list byte)
| MsgHasFractionalPart (dt : DataType) (v : Decimal)
| MsgCannotInferFixedBytes (v : list byte) (len : Z)
| MsgBytesHasLength (dt : DataType) (v : list byte) (size : Z)
| MsgNotDefinedForValue (op given : string)
| MsgNotDefinedForType (op : string) (dt : DataType)
| MsgCannotUseTypeWith (dtGiven : DataType) (op : string) (dtExpected : DataType)
| MsgCannotUseValueWith (given op expected : string)
| MsgCannotUseBetweenBytes (op major1 major2 : string)
| MsgResultTooLong (op : string) (dt1 dt2 : DataType)
| MsgConvertToDynamic (kind : string)
| MsgDivisionByZero.

Record Error : Type := mkError {
  ErrPosition : Z;
  ErrLength : Z;
  Category : ErrorCategory;
  Code : ErrorCode;
  Severity : ErrorSeverity;
  Prefix : string;
  ErrMessage : Message
}.

Definition ErrorList := list Error.


Definition isOverflowWarning (e : Error) : bool :=
  match Severity e, ErrMessage e with
  | ErrorSeverityWarning, MsgOverflowsConverted _ _ _ _ => true
  | _, _ => false
  end.

Definition isDividedByZero (e : Error) : bool :=
  match Code e with ErrorCodeDividedByZero => true | _ => false end.

End errors.

Import errors.

(* ================================================================== *)
(** ** The checker *)

Module checker.

(** *** Effects: diagnostics, panics, fuel *)

(** A check function appends to the diagnostics list it is given and
    either returns, or aborts the process (a Go panic), or, in this model
    only, runs out of the fuel that bounds the recursion of [checkExpr]. *)
Inductive outcome (A : Type) : Type :=
| Done (a : A)
| Panic
| OutOfFuel.

Arguments Done {A} a.
Arguments Panic {A}.
Arguments OutOfFuel {A}.

Definition M (A : Type) : Type := ErrorList -> outcome A * ErrorList.

Definition ret {A : Type} (a : A) : M A := fun el => (Done a, el).

Definition bind {A B : Type} (m : M A) (k : A -> M B) : M B :=
  fun el =>
    match m el with
    | (Done a, el') => k a el'
    | (Panic, el') => (Panic, el')
    | (OutOfFuel, el') => (OutOfFuel, el')
    end.

Definition panic {A : Type} : M A := fun el => (Panic, el).

Definition outOfFuel {A : Type} : M A := fun el => (OutOfFuel, el).

(** The only way the list changes: one entry is added at its end. *)
Definition Append (e : Error) : M unit := fun el => (Done tt, el ++ [e]).

Declare Scope checker_scope.
Delimit Scope checker_scope with checker.
Notation "x <- m ;; k" := (bind m (fun x => k))
  (at level 61, m at next level, right associativity) : checker_scope.
Notation "' p <- m ;; k" := (bind m (fun x => let p := x in k))
  (at level 61, p pattern, m at next level, right associativity) : checker_scope.
Notation "m ;; k" := (bind m (fun _ => k))
  (at level 61, right associativity) : checker_scope.
Open Scope checker_scope.

(** The failure sentinel of a check function is the nil node. *)
Definition nilNode : M (option ExprNode) := ret None.

(** *** Type actions, options, schema *)

(** Modelled from the spec: the type action protocol (infer-default,
    infer-with-size, infer-with-major, assign); the declarations are missing
    from the sources at hand.  A nil action is [None]. *)
Inductive typeAction : Type :=
| typeActionInferDefault
| typeActionInferWithSize (size : Z)
| typeActionInferWithMajor (major : DataTypeMajor)
| typeActionAssign (dt : DataType).

Definition newTypeActionInferDefault : option typeAction :=
  Some typeActionInferDefault.
Definition newTypeActionInferWithMajor (major : DataTypeMajor) : option typeAction :=
  Some (typeActionInferWithMajor major).
Definition newTypeActionAssign (dt : DataType) : option typeAction :=
  Some (typeActionAssign dt).

(** Modelled from the spec: the check options are bit flags; their
    declaration is missing from the sources at hand. *)
Definition CheckOptions := Z.
Definition CheckWithSafeMath : CheckOptions := 1.
Definition CheckWithSafeCast : CheckOptions := 2.
Definition CheckWithConstantOnly : CheckOptions := 4.

Definition hasOption (o flag : CheckOptions) : bool :=
  negb (Z.land o flag =? 0).

(** Modelled from the spec: the schema lookup [find_column], reduced to
    the table the expression is checked against: a column is found by name
    and has a concrete data type. *)
Record Column : Type := mkColumn { ColumnName : list byte; ColumnType : DataType }.
Definition Table := list Column.

Definition bytes_eqb (a b : list byte) : bool :=
  if list_eq_dec Byte.byte_eq_dec a b then true else false.

Fixpoint FindColumn (t : Table) (name : list byte) (i : nat) : option (nat * DataType) :=
  match t with
  | [] => None
  | c :: t' =>
      if bytes_eqb (ColumnName c) name then Some (i, ColumnType c)
      else FindColumn t' name (S i)
  end.

(** *** Constant values *)

(** Modelled from the spec: the constant value abstraction, which
    normalizes the literal variants into three value kinds (bool, bytes,
    decimal with nullability); the declarations are missing from the sources
    at hand.  A nil byte slice is [None]. *)
Record NullDecimal : Type := mkNullDecimal { NDecimal : Decimal; NValid : bool }.

Inductive constantValue : Type :=
| constantValueBool (v : BoolValue)
| constantValueBytes (v : option (list byte))
| constantValueDecimal (v : NullDecimal).

Definition newConstantValueBool (v : BoolValue) := constantValueBool v.
Definition newConstantValueBoolFromNil := constantValueBool BoolValueUnknown.
Definition newConstantValueBytes (v : list byte) := constantValueBytes (Some v).
Definition newConstantValueBytesFromNil := constantValueBytes None.
Definition newConstantValueDecimal (v : Decimal) :=
  constantValueDecimal (mkNullDecimal v true).
Definition newConstantValueDecimalFromNil :=
  constantValueDecimal (mkNullDecimal Zero false).

(** bytes.Compare: lexicographic order of byte strings. *)
Fixpoint bytes_Compare (a b : list byte) : comparison :=
  match a, b with
  | [], [] => Eq
  | [], _ :: _ => Lt
  | _ :: _, [] => Gt
  | x :: a', y :: b' =>
      match N.compare (Byte.to_N x) (Byte.to_N y) with
      | Eq => bytes_Compare a' b'
      | c => c
      end
  end.

Definition bytes_Equal (a b : list byte) : bool :=
  match bytes_Compare a b with Eq => true | _ => false end.

Definition len {A : Type} (l : list A) : Z := Z.of_nat (List.length l).

(** *** Normalization of decimal constants *)

(** Modelled from the spec: decimal constants go through a normalization
    step that strips trailing fractional zeros; the function is missing from
    the sources at hand. *)
Fixpoint stripTrailingZeros (k : nat) (v e : Z) : Decimal :=
  match k with
  | O => New v e
  | S k' =>
      if (e <? 0) && (v mod 10 =? 0)
      then stripTrailingZeros k' (v / 10) (e + 1)
      else New v e
  end.

Definition normalizeDecimal (d : Decimal) : Decimal :=
  stripTrailingZeros (Z.to_nat (- exp d)) (value d) (exp d).

Section Checker.

(** The two digit limits of the package are missing from the sources at
    hand; the development is parametric in them. *)
Variable MaxIntegerPartDigits : Z.
Variable MaxFractionalPartDigits : Z.

(** Modelled from the spec: a decimal constant is capped at a fixed
    maximum number of digits; the function is missing from the sources at
    hand.  The constant is in the safe range when its magnitude is below
    [10 ^ MaxIntegerPartDigits]. *)
Definition safeDecimalRange (d : Decimal) : bool :=
  let MaxConstant := New (10 ^ MaxIntegerPartDigits - 1) 0 in
  let MinConstant := Neg MaxConstant in
  GreaterThanOrEqual d MinConstant && LessThanOrEqual d MaxConstant.

(** *** Diagnostics of the check functions *)

Definition elAppendTypeErrorAssignDataType (n : ExprNode) (fn : string)
    (dtExpected dtGiven : DataType) : M unit :=
  Append (mkError (GetPosition n) (GetLength n) ErrorCategorySemantic
            ErrorCodeTypeError ErrorSeverityError fn
            (MsgExpectButGiven dtExpected dtGiven)).

Definition verifyTypeAction (n : ExprNode) (fn : string) (dt : DataType)
    (ta : option typeAction) : M (option ExprNode) :=
  match ta with
  | Some (typeActionAssign adt) =>
      if negb (DataType_Equal dt adt)
      then elAppendTypeErrorAssignDataType n fn adt dt ;; nilNode
      else ret (Some n)
  | _ => ret (Some n)
  end.

Definition delegateTypeAction
    (checkExpr : ExprNode -> option typeAction -> M (option ExprNode))
    (n : ExprNode) (fn : string) (dt : DataType) (ta : option typeAction)
    : M (option ExprNode) :=
  match ta with
  | Some _ => if Pending dt then checkExpr n ta else verifyTypeAction n fn dt ta
  | None => verifyTypeAction n fn dt ta
  end.

Definition checkVariable (b : NodeBase) (ty : DataType) (Name : list byte)
    (Desc : option nat) (s : Table) (o : CheckOptions) (ta : option typeAction)
    : M (option ExprNode) :=
  let fn := "CheckVariable"%string in
  let n := IdentifierNode b ty Name Desc in
  if hasOption o CheckWithConstantOnly then
    Append (mkError (GetPosition n) (GetLength n) ErrorCategorySemantic
              ErrorCodeNonConstantExpression ErrorSeverityError fn
              (MsgNotAConstant Name)) ;;
    nilNode
  else
    match FindColumn s Name O with
    | None =>
        Append (mkError (GetPosition n) (GetLength n) ErrorCategorySemantic
                  ErrorCodeColumnNotFound ErrorSeverityError fn
                  (MsgCannotFindColumn Name)) ;;
        nilNode
    | Some (cd, dt) =>
        r <- verifyTypeAction n fn dt ta ;;
        match r with
        | None => nilNode
        | Some _ => ret (Some (IdentifierNode b dt Name (Some cd)))
        end
    end.

Definition describeValueNodeType (n : ExprNode) : M string :=
  match n with
  | BoolValueNode _ _ => ret "boolean constant"%string
  | AddressValueNode _ _ => ret "address constant"%string
  | IntegerValueNode _ _ _ _ | DecimalValueNode _ _ _ => ret "number constant"%string
  | BytesValueNode _ _ _ => ret "bytes constant"%string
  | NullValueNode _ _ => ret "null constant"%string
  | _ => panic
  end.

Definition elAppendTypeErrorAssignValueNode (n : ExprNode) (fn : string)
    (dt : DataType) : M unit :=
  d <- describeValueNodeType n ;;
  Append (mkError (GetPosition n) (GetLength n) ErrorCategorySemantic
            ErrorCodeTypeError ErrorSeverityError fn
            (MsgExpectButValueGiven dt d)).

Definition checkBoolValue (b : NodeBase) (V : BoolValue) (o : CheckOptions)
    (ta : option typeAction) : M (option ExprNode) :=
  let fn := "CheckBoolValue"%string in
  let n := BoolValueNode b V in
  match ta with
  | Some (typeActionAssign adt) =>
      let '(major, _) := DecomposeDataType adt in
      if negb (major =? DataTypeMajorBool)
      then elAppendTypeErrorAssignValueNode n fn adt ;; nilNode
      else ret (Some n)
  | _ => ret (Some n)
  end.

Definition checkAddressValue (b : NodeBase) (V : list byte) (o : CheckOptions)
    (ta : option typeAction) : M (option ExprNode) :=
  let fn := "CheckAddressValue"%string in
  let n := AddressValueNode b V in
  match ta with
  | Some (typeActionAssign adt) =>
      let '(major, _) := DecomposeDataType adt in
      if negb (major =? DataTypeMajorAddress)
      then elAppendTypeErrorAssignValueNode n fn adt ;; nilNode
      else ret (Some n)
  | _ => ret (Some n)
  end.

Definition mustGetMinMax (dt : DataType) : M (Decimal * Decimal) :=
  match GetMinMax dt with
  | Some p => ret p
  | None => panic
  end.

Definition mustDecimalEncode (dt : DataType) (d : Decimal) : M (list byte) :=
  match DecimalEncode dt d with
  | Some b => ret b
  | None => panic
  end.

Definition mustDecimalDecode (dt : DataType) (b : list byte) : M Decimal :=
  match DecimalDecode dt b with
  | Some d => ret d
  | None => panic
  end.

Definition cropDecimal (dt : DataType) (d : Decimal) : M Decimal :=
  b <- mustDecimalEncode dt d ;;
  mustDecimalDecode dt b.

Definition elAppendConstantTooLongError (n : ExprNode) (fn : string)
    (v : Decimal) : M unit :=
  Append (mkError (GetPosition n) (GetLength n) ErrorCategorySemantic
            ErrorCodeConstantTooLong ErrorSeverityError fn
            (MsgConstantTooLong (GetToken n))).

Definition elAppendOverflowError (n : ExprNode) (fn : string) (dt : DataType)
    (v min max : Decimal) : M unit :=
  Append (mkError (GetPosition n) (GetLength n) ErrorCategorySemantic
            ErrorCodeOverflow ErrorSeverityError fn
            (MsgOverflows (GetToken n) v dt)) ;;
  Append (mkError (GetPosition n) (GetLength n) ErrorCategoryNil
            ErrorCodeNil ErrorSeverityNote fn
            (MsgRangeIs dt min max)).

Definition elAppendOverflowWarning (n : ExprNode) (fn : string) (dt : DataType)
    (from to : Decimal) : M unit :=
  Append (mkError (GetPosition n) (GetLength n) ErrorCategoryNil
            ErrorCodeNil ErrorSeverityWarning fn
            (MsgOverflowsConverted (GetToken n) from dt to)).

(** *** Value nodes *)

(** The closure [infer] of checkIntegerValue: the type inferred for a
    width of [size] bytes, whether inference succeeded, and the value of the
    node afterwards (the closure overwrites it when it crops). *)
Definition checkIntegerValue_infer (n : ExprNode) (fn : string) (o : CheckOptions)
    (V : Decimal) (size : Z) : M (DataType * bool * Decimal) :=
  (* The first case: assume V fits in the signed integer. *)
  let minor := uint8 (size - 1) in
  let dt := ComposeDataType DataTypeMajorInt minor in
  '(min, max) <- mustGetMinMax dt ;;
  if LessThan V min then
    if hasOption o CheckWithSafeMath then
      elAppendOverflowError n fn dt V min max ;;
      ret (dt, false, V)
    else
      cropped <- cropDecimal dt V ;;
      elAppendOverflowWarning n fn dt V cropped ;;
      ret (dt, true, normalizeDecimal cropped)
  else if LessThanOrEqual V max then
    ret (dt, true, V)
  else
    (* The second case: V does not fit in the signed integer. *)
    let dt := ComposeDataType DataTypeMajorUint minor in
    '(min, max) <- mustGetMinMax dt ;;
    if GreaterThan V max then
      if hasOption o CheckWithSafeMath then
        elAppendOverflowError n fn dt V min max ;;
        ret (dt, false, V)
      else
        cropped <- cropDecimal dt V ;;
        elAppendOverflowWarning n fn dt V cropped ;;
        ret (dt, true, normalizeDecimal cropped)
    else ret (dt, true, V).

(** The end of a value check: the type is stored unless still pending. *)
Definition finishInteger (b : NodeBase) (ty : DataType) (IsAddress : bool)
    (V : Decimal) (dt : DataType) : M (option ExprNode) :=
  ret (Some (IntegerValueNode b (if Pending dt then ty else dt) IsAddress V)).

(** The switch at label executeTypeAction.  An infer-with-major action is
    rewritten and the switch is entered again (the goto); [k] bounds the
    number of entries. *)
Fixpoint checkIntegerValue_executeTypeAction (k : nat) (b : NodeBase)
    (ty : DataType) (IsAddress : bool) (V : Decimal) (o : CheckOptions)
    (ta : option typeAction) : M (option ExprNode) :=
  let fn := "CheckIntegerValue"%string in
  let n := IntegerValueNode b ty IsAddress V in
  match k with
  | O => outOfFuel
  | S k' =>
      match ta with
      | None => finishInteger b ty IsAddress V DataTypePending
      | Some typeActionInferDefault =>
          (* Default to int256 or uint256. *)
          '(dt, ok, V') <- checkIntegerValue_infer n fn o V (256 / 8) ;;
          if negb ok then nilNode else finishInteger b ty IsAddress V' dt
      | Some (typeActionInferWithSize size) =>
          '(dt, ok, V') <- checkIntegerValue_infer n fn o V size ;;
          if negb ok then nilNode else finishInteger b ty IsAddress V' dt
      | Some (typeActionInferWithMajor major) =>
          let ta' :=
            if major =? DataTypeMajorAddress then
              newTypeActionAssign (ComposeDataType major DataTypeMinorDontCare)
            else if (major =? DataTypeMajorInt) || (major =? DataTypeMajorUint) then
              newTypeActionAssign (ComposeDataType major (uint8 (256 / 8 - 1)))
            else if (major =? DataTypeMajorFixed) || (major =? DataTypeMajorUfixed) then
              newTypeActionAssign
                (ComposeDataType (uint8 (major + (128 / 8 - 1))) (uint8 18))
            else newTypeActionInferDefault in
          checkIntegerValue_executeTypeAction k' b ty IsAddress V o ta'
      | Some (typeActionAssign dt) =>
          let '(major, _) := DecomposeDataType dt in
          if major =? DataTypeMajorAddress then
            if negb IsAddress then
              Append (mkError (GetPosition n) (GetLength n) ErrorCategorySemantic
                        ErrorCodeInvalidAddressChecksum ErrorSeverityError fn
                        (MsgNotAnAddressConstant dt (GetToken n))) ;;
              nilNode
            else
              (* Redirect to checkAddressValue if it becomes an address. *)
              let addrNode := AddressValueNode emptyBase [] in
              let addrNode := SetPosition addrNode (GetPosition addrNode) in
              let addrNode := SetLength addrNode (GetLength addrNode) in
              let addrNode := SetToken addrNode (GetToken addrNode) in
              v <- mustDecimalEncode
                     (ComposeDataType DataTypeMajorUint (uint8 (160 / 8 - 1))) V ;;
              checkAddressValue (GetBase addrNode) v o ta
          else if (major =? DataTypeMajorInt) || (major =? DataTypeMajorUint)
                  || IsFixedRange major || IsUfixedRange major then
            '(min, max) <- mustGetMinMax dt ;;
            if LessThan V min || GreaterThan V max then
              if hasOption o CheckWithSafeMath then
                elAppendOverflowError n fn dt V min max ;;
                nilNode
              else
                cropped <- cropDecimal dt V ;;
                elAppendOverflowWarning n fn dt V cropped ;;
                finishInteger b ty IsAddress (normalizeDecimal cropped) dt
            else finishInteger b ty IsAddress V dt
          else
            elAppendTypeErrorAssignValueNode n fn dt ;;
            nilNode
      end
  end.

Definition checkIntegerValue (b : NodeBase) (ty : DataType) (IsAddress : bool)
    (V : Decimal) (o : CheckOptions) (ta : option typeAction)
    : M (option ExprNode) :=
  let fn := "CheckIntegerValue"%string in
  let V := normalizeDecimal V in
  let n := IntegerValueNode b ty IsAddress V in
  if negb (safeDecimalRange V) then
    elAppendConstantTooLongError n fn V ;;
    nilNode
  else checkIntegerValue_executeTypeAction 2 b ty IsAddress V o ta.

(** The closure [infer] of checkDecimalValue. *)
Definition checkDecimalValue_infer (n : ExprNode) (fn : string) (o : CheckOptions)
    (V : Decimal) (size fractionalDigits : Z) : M (DataType * bool * Decimal) :=
  (* Infer the type in the same way as checkIntegerValue. *)
  let major := uint8 (DataTypeMajorFixed + uint8 (size - 1)) in
  let minor := uint8 fractionalDigits in
  let dt := ComposeDataType major minor in
  '(min, max) <- mustGetMinMax dt ;;
  if LessThan V min then
    if hasOption o CheckWithSafeMath then
      elAppendOverflowError n fn dt V min max ;;
      ret (dt, false, V)
    else
      cropped <- cropDecimal dt V ;;
      elAppendOverflowWarning n fn dt V cropped ;;
      ret (dt, false, normalizeDecimal cropped)
  else if LessThanOrEqual V max then
    ret (dt, true, V)
  else
    let major := uint8 (DataTypeMajorUfixed + uint8 (size - 1)) in
    let minor := uint8 fractionalDigits in
    let dt := ComposeDataType major minor in
    '(min, max) <- mustGetMinMax dt ;;
    if GreaterThan V max then
      if hasOption o CheckWithSafeMath then
        elAppendOverflowError n fn dt V min max ;;
        ret (dt, false, V)
      else
        cropped <- cropDecimal dt V ;;
        elAppendOverflowWarning n fn dt V cropped ;;
        ret (dt, true, normalizeDecimal cropped)
    else ret (dt, true, V).

Definition finishDecimal (b : NodeBase) (ty : DataType) (V : Decimal)
    (dt : DataType) : M (option ExprNode) :=
  if negb (Pending dt) then
    let '(_, minor) := DecomposeDataType dt in
    let fractionalDigits := minor in
    ret (Some (DecimalValueNode b dt (normalizeDecimal (Round V fractionalDigits))))
  else ret (Some (DecimalValueNode b ty V)).

Fixpoint checkDecimalValue_executeTypeAction (k : nat) (b : NodeBase)
    (ty : DataType) (V : Decimal) (o : CheckOptions) (ta : option typeAction)
    : M (option ExprNode) :=
  let fn := "CheckDecimalValue"%string in
  let n := DecimalValueNode b ty V in
  match k with
  | O => outOfFuel
  | S k' =>
      match ta with
      | None => finishDecimal b ty V DataTypePending
      | Some typeActionInferDefault =>
          (* Default to fixed128x18 and ufixed128x18. *)
          '(dt, ok, V') <- checkDecimalValue_infer n fn o V (128 / 8) 18 ;;
          if negb ok then nilNode else finishDecimal b ty V' dt
      | Some (typeActionInferWithSize _) =>
          '(dt, ok, V') <- checkDecimalValue_infer n fn o V (128 / 8) 18 ;;
          if negb ok then nilNode else finishDecimal b ty V' dt
      | Some (typeActionInferWithMajor major) =>
          let ta' :=
            if (major =? DataTypeMajorFixed) || (major =? DataTypeMajorUfixed) then
              newTypeActionAssign
                (ComposeDataType (uint8 (major + (128 / 8 - 1))) (uint8 18))
            else if (major =? DataTypeMajorInt) || (major =? DataTypeMajorUint) then
              newTypeActionAssign (ComposeDataType major (uint8 (256 / 8 - 1)))
            else newTypeActionInferDefault in
          checkDecimalValue_executeTypeAction k' b ty V o ta'
      | Some (typeActionAssign dt) =>
          let '(major, _) := DecomposeDataType dt in
          if IsFixedRange major || IsUfixedRange major then
            '(min, max) <- mustGetMinMax dt ;;
            if LessThan V min || GreaterThan V max then
              if hasOption o CheckWithSafeMath then
                elAppendOverflowError n fn dt V min max ;;
                nilNode
              else
                cropped <- cropDecimal dt V ;;
                elAppendOverflowWarning n fn dt V cropped ;;
                finishDecimal b ty (normalizeDecimal cropped) dt
            else finishDecimal b ty V dt
          else if (major =? DataTypeMajorInt) || (major =? DataTypeMajorUint) then
            Append (mkError (GetPosition n) (GetLength n) ErrorCategorySemantic
                      ErrorCodeTypeError ErrorSeverityError fn
                      (MsgHasFractionalPart dt V)) ;;
            nilNode
          else
            elAppendTypeErrorAssignValueNode n fn dt ;;
            nilNode
      end
  end.

Definition checkDecimalValue (b : NodeBase) (ty : DataType) (V : Decimal)
    (o : CheckOptions) (ta : option typeAction) : M (option ExprNode) :=
  let fn := "CheckDecimalValue"%string in
  let V := normalizeDecimal V in
  let n := DecimalValueNode b ty V in
  if negb (safeDecimalRange V) then
    elAppendConstantTooLongError n fn V ;;
    nilNode
  else
    (* Redirect to checkIntegerValue if the value is an integer. *)
    let intPart := Truncate V 0 in
    if Equal V intPart then
      checkIntegerValue (GetBase n) (GetType n) false V o ta
    else
      (* Now we are sure the number has a fractional part. *)
      checkDecimalValue_executeTypeAction 2 b ty V o ta.

Definition finishBytes (b : NodeBase) (ty : DataType) (V : list byte)
    (dt : DataType) : M (option ExprNode) :=
  ret (Some (BytesValueNode b (if Pending dt then ty else dt) V)).

Fixpoint checkBytesValue_executeTypeAction (k : nat) (b : NodeBase)
    (ty : DataType) (V : list byte) (o : CheckOptions) (ta : option typeAction)
    : M (option ExprNode) :=
  let fn := "CheckBytesValue"%string in
  let n := BytesValueNode b ty V in
  match k with
  | O => outOfFuel
  | S k' =>
      match ta with
      | None => finishBytes b ty V DataTypePending
      | Some typeActionInferDefault =>
          (* Default to bytes. *)
          let dt := ComposeDataType DataTypeMajorDynamicBytes DataTypeMinorDontCare in
          checkBytesValue_executeTypeAction k' b ty V o (newTypeActionAssign dt)
      | Some (typeActionInferWithSize size) =>
          let dt := ComposeDataType DataTypeMajorFixedBytes (uint8 (size - 1)) in
          checkBytesValue_executeTypeAction k' b ty V o (newTypeActionAssign dt)
      | Some (typeActionInferWithMajor major) =>
          if major =? DataTypeMajorFixedBytes then
            if (len V <? 1) || (32 <? len V) then
              Append (mkError (GetPosition n) (GetLength n) ErrorCategorySemantic
                        ErrorCodeTypeError ErrorSeverityError fn
                        (MsgCannotInferFixedBytes V (len V))) ;;
              nilNode
            else
              let minor := uint8 (len V) in
              let dt := ComposeDataType major minor in
              checkBytesValue_executeTypeAction k' b ty V o (newTypeActionAssign dt)
          else if major =? DataTypeMajorDynamicBytes then
            let dt := ComposeDataType major DataTypeMinorDontCare in
            checkBytesValue_executeTypeAction k' b ty V o (newTypeActionAssign dt)
          else
            checkBytesValue_executeTypeAction k' b ty V o newTypeActionInferDefault
      | Some (typeActionAssign dt) =>
          let '(major, minor) := DecomposeDataType dt in
          if major =? DataTypeMajorDynamicBytes then
            (* Do nothing because it is always valid. *)
            finishBytes b ty V dt
          else if major =? DataTypeMajorFixedBytes then
            let sizeGiven := len V in
            let sizeExpected := minor + 1 in
            if negb (sizeGiven =? sizeExpected) then
              Append (mkError (GetPosition n) (GetLength n) ErrorCategorySemantic
                        ErrorCodeTypeError ErrorSeverityError fn
                        (MsgBytesHasLength dt V sizeGiven)) ;;
              nilNode
            else finishBytes b ty V dt
          else
            elAppendTypeErrorAssignValueNode n fn dt ;;
            nilNode
      end
  end.

Definition checkBytesValue (b : NodeBase) (ty : DataType) (V : list byte)
    (o : CheckOptions) (ta : option typeAction) : M (option ExprNode) :=
  checkBytesValue_executeTypeAction 3 b ty V o ta.

Definition checkNullValue (b : NodeBase) (ty : DataType) (o : CheckOptions)
    (ta : option typeAction) : M (option ExprNode) :=
  let dt :=
    match ta with
    | None => DataTypePending
    | Some typeActionInferDefault => DataTypeNull
    | Some (typeActionInferWithSize _) => DataTypeNull
    | Some (typeActionInferWithMajor _) => DataTypeNull
    | Some (typeActionAssign adt) => adt
    end in
  ret (Some (NullValueNode b (if Pending dt then ty else dt))).

(** *** Unary operators *)

(** The recursive calls of a check function go through [checkExpr], which
    the functions below take as an argument; the knot is tied in
    [checkExpr] itself. *)
Section Operators.

Variable checkExpr : ExprNode -> option typeAction -> M (option ExprNode).

Definition mustGetTarget (n : ExprNode) : M ExprNode :=
  match GetTarget n with Some x => ret x | None => panic end.
Definition mustGetObject (n : ExprNode) : M ExprNode :=
  match GetObject n with Some x => ret x | None => panic end.
Definition mustGetSubject (n : ExprNode) : M ExprNode :=
  match GetSubject n with Some x => ret x | None => panic end.

(** The span of [n] stamped on a new node. *)
Definition copySpan (r n : ExprNode) : ExprNode :=
  SetToken (SetLength (SetPosition r (GetPosition n)) (GetLength n)) (GetToken n).

(** A new boolean constant with the span of [n]. *)
Definition newBoolValueNode (n : ExprNode) (v : BoolValue) : ExprNode :=
  BoolValueNode (mkNodeBase (GetPosition n) (GetLength n) (GetToken n)) v.

Definition checkChildrenForUnaryOperator (n : ExprNode) : M (option ExprNode) :=
  target <- mustGetTarget n ;;
  target <- checkExpr target None ;;
  match target with
  | None => nilNode
  | Some target => ret (Some (SetTarget n target))
  end.

Definition elAppendTypeErrorOperatorValueNode (n : ExprNode) (fn op : string)
    : M unit :=
  d <- describeValueNodeType n ;;
  Append (mkError (GetPosition n) (GetLength n) ErrorCategorySemantic
            ErrorCodeTypeError ErrorSeverityError fn
            (MsgNotDefinedForValue op d)).

Definition elAppendTypeErrorOperatorDataType (n : ExprNode) (fn op : string)
    (dt : DataType) : M unit :=
  Append (mkError (GetPosition n) (GetLength n) ErrorCategorySemantic
            ErrorCodeTypeError ErrorSeverityError fn
            (MsgNotDefinedForType op dt)).

Definition validateNumberType (dt : DataType) (n : ExprNode) (fn op : string)
    : M bool :=
  if negb (Pending dt) then
    let '(major, _) := DecomposeDataType dt in
    if (major =? DataTypeMajorInt) || (major =? DataTypeMajorUint)
       || IsFixedRange major || IsUfixedRange major
    then ret true
    else elAppendTypeErrorOperatorDataType n fn op dt ;; ret false
  else ret true.

Inductive extractNumberValueStatus : Type :=
| extractNumberValueStatusError
| extractNumberValueStatusInteger
| extractNumberValueStatusDecimal
| extractNumberValueStatusNullWithType
| extractNumberValueStatusNullWithoutType.

Definition extractNumberValue (n : ExprNode) (fn op : string)
    : M (Decimal * extractNumberValueStatus) :=
  match n with
  | IntegerValueNode _ _ _ V => ret (V, extractNumberValueStatusInteger)
  | DecimalValueNode _ _ V => ret (V, extractNumberValueStatusDecimal)
  | NullValueNode _ ty =>
      if Pending ty
      then ret (Zero, extractNumberValueStatusNullWithoutType)
      else ret (Zero, extractNumberValueStatusNullWithType)
  | BoolValueNode _ _ | AddressValueNode _ _ | BytesValueNode _ _ _ =>
      elAppendTypeErrorOperatorValueNode n fn op ;;
      ret (Zero, extractNumberValueStatusError)
  | _ => panic
  end.

Definition checkPosOperator (n : ExprNode) (ta : option typeAction)
    : M (option ExprNode) :=
  let fn := "CheckPosOperator"%string in
  let op := "unary operator +"%string in
  r <- checkChildrenForUnaryOperator n ;;
  match r with
  | None => nilNode
  | Some n =>
      target <- mustGetTarget n ;;
      let dtTarget := GetType target in
      ok <- validateNumberType dtTarget target fn op ;;
      if negb ok then nilNode
      else
        let dt := dtTarget in
        if isValuer target then
          '(v, status) <- extractNumberValue target fn op ;;
          let stamp r := SetType (copySpan r n) dt in
          match status with
          | extractNumberValueStatusError => nilNode
          | extractNumberValueStatusInteger =>
              let node := IntegerValueNode emptyBase DataTypePending false v in
              delegateTypeAction checkExpr (stamp node) fn dt ta
          | extractNumberValueStatusDecimal =>
              let node := DecimalValueNode emptyBase DataTypePending v in
              delegateTypeAction checkExpr (stamp node) fn dt ta
          | extractNumberValueStatusNullWithType =>
              let node := NullValueNode emptyBase DataTypePending in
              delegateTypeAction checkExpr (stamp node) fn dt ta
          | extractNumberValueStatusNullWithoutType =>
              elAppendTypeErrorOperatorValueNode target fn op ;;
              nilNode
          end
        else delegateTypeAction checkExpr target fn dt ta
  end.

(** The closure [calc] of checkNegOperator. *)
Definition checkNegOperator_calc (n : ExprNode) (fn : string) (o : CheckOptions)
    (dt : DataType) (v : Decimal) : M (Decimal * bool) :=
  let r := Neg v in
  if negb (Pending dt) then
    '(min, max) <- mustGetMinMax dt ;;
    if LessThan r min || GreaterThan r max then
      if hasOption o CheckWithSafeMath then
        elAppendOverflowError n fn dt r min max ;;
        ret (r, false)
      else
        cropped <- cropDecimal dt r ;;
        elAppendOverflowWarning n fn dt r cropped ;;
        ret (normalizeDecimal cropped, true)
    else ret (normalizeDecimal r, true)
  else ret (normalizeDecimal r, true).

Definition checkNegOperator (o : CheckOptions) (n : ExprNode)
    (ta : option typeAction) : M (option ExprNode) :=
  let fn := "CheckNegOperator"%string in
  let op := "unary operator -"%string in
  r <- checkChildrenForUnaryOperator n ;;
  match r with
  | None => nilNode
  | Some n =>
      target <- mustGetTarget n ;;
      let dtTarget := GetType target in
      ok <- validateNumberType dtTarget target fn op ;;
      if negb ok then nilNode
      else
        let n := SetType n dtTarget in
        let dt := GetType n in
        if isValuer target then
          '(v, status) <- extractNumberValue target fn op ;;
          let stamp r := SetType (copySpan r n) dt in
          match status with
          | extractNumberValueStatusError => nilNode
          | extractNumberValueStatusInteger =>
              '(V, ok) <- checkNegOperator_calc n fn o dt v ;;
              if negb ok then nilNode
              else
                let node := IntegerValueNode emptyBase DataTypePending false V in
                delegateTypeAction checkExpr (stamp node) fn dt ta
          | extractNumberValueStatusDecimal =>
              '(V, ok) <- checkNegOperator_calc n fn o dt v ;;
              if negb ok then nilNode
              else
                let node := DecimalValueNode emptyBase DataTypePending V in
                delegateTypeAction checkExpr (stamp node) fn dt ta
          | extractNumberValueStatusNullWithType =>
              let node := NullValueNode emptyBase DataTypePending in
              delegateTypeAction checkExpr (stamp node) fn dt ta
          | extractNumberValueStatusNullWithoutType =>
              elAppendTypeErrorOperatorValueNode target fn op ;;
              nilNode
          end
        else delegateTypeAction checkExpr n fn dt ta
  end.

Definition validateBoolType (dt : DataType) (n : ExprNode) (fn op : string)
    : M bool :=
  if negb (Pending dt) then
    let '(major, _) := DecomposeDataType dt in
    if major =? DataTypeMajorBool then ret true
    else elAppendTypeErrorOperatorDataType n fn op dt ;; ret false
  else ret true.

Definition extractBoolValue (n : ExprNode) (fn op : string)
    : M (BoolValue * bool) :=
  match n with
  | BoolValueNode _ V => ret (V, true)
  | NullValueNode _ _ => ret (BoolValueUnknown, true)
  | AddressValueNode _ _ | IntegerValueNode _ _ _ _ | DecimalValueNode _ _ _
  | BytesValueNode _ _ _ =>
      elAppendTypeErrorOperatorValueNode n fn op ;;
      ret (BoolValueUnknown, false)
  | _ => panic
  end.

Definition checkNotOperator (n : ExprNode) (ta : option typeAction)
    : M (option ExprNode) :=
  let fn := "CheckNotOperator"%string in
  let op := "unary operator NOT"%string in
  r <- checkChildrenForUnaryOperator n ;;
  match r with
  | None => nilNode
  | Some n =>
      target <- mustGetTarget n ;;
      let dtTarget := GetType target in
      ok <- validateBoolType dtTarget target fn op ;;
      if negb ok then nilNode
      else
        let dt := GetType n in
        if isValuer target then
          '(v, ok) <- extractBoolValue target fn op ;;
          if negb ok then nilNode
          else
            let node := newBoolValueNode n (Not v) in
            verifyTypeAction node fn dt ta
        else verifyTypeAction n fn dt ta
  end.

Definition checkParenOperator (n : ExprNode) (ta : option typeAction)
    : M (option ExprNode) :=
  r <- mustGetTarget n ;;
  r <- checkExpr r ta ;;
  match r with
  | None => nilNode
  | Some r => ret (Some (copySpan r n))
  end.

(** *** Binary operators *)

Definition checkChildrenForBinaryOperator (n : ExprNode) : M (option ExprNode) :=
  object <- mustGetObject n ;;
  object <- checkExpr object None ;;
  let '(n, hasError) :=
    match object with
    | Some object => (SetObject n object, false)
    | None => (n, true)
    end in
  subject <- mustGetSubject n ;;
  subject <- checkExpr subject None ;;
  let '(n, hasError) :=
    match subject with
    | Some subject => (SetSubject n subject, hasError)
    | None => (n, true)
    end in
  if hasError then nilNode else ret (Some n).

(** The constants of the two operands of AND and OR; an operand that is
    not a constant leaves the zero value. *)
Definition extractBoolOperand (x : ExprNode) (fn op : string)
    : M (BoolValue * bool) :=
  if isValuer x then extractBoolValue x fn op
  else ret (BoolValueInvalid, true).

Definition checkAndOperator (n : ExprNode) (ta : option typeAction)
    : M (option ExprNode) :=
  let fn := "CheckAndOperator"%string in
  let op := "binary operator AND"%string in
  r <- checkChildrenForBinaryOperator n ;;
  match r with
  | None => nilNode
  | Some n =>
      object <- mustGetObject n ;;
      let dtObject := GetType object in
      ok <- validateBoolType dtObject object fn op ;;
      if negb ok then nilNode
      else
        subject <- mustGetSubject n ;;
        let dtSubject := GetType subject in
        ok <- validateBoolType dtSubject subject fn op ;;
        if negb ok then nilNode
        else
          let dt := GetType n in
          '(v1, ok) <- extractBoolOperand object fn op ;;
          if negb ok then nilNode
          else
            '(v2, ok) <- extractBoolOperand subject fn op ;;
            if negb ok then nilNode
            else
              let vo :=
                if Valid v1 && Valid v2 then And v1 v2
                else if BoolValue_eqb v1 BoolValueFalse
                        || BoolValue_eqb v2 BoolValueFalse
                then BoolValueFalse
                else BoolValueInvalid in
              let r := if Valid vo then newBoolValueNode n vo else n in
              verifyTypeAction r fn dt ta
  end.

Definition checkOrOperator (n : ExprNode) (ta : option typeAction)
    : M (option ExprNode) :=
  let fn := "CheckOrOperator"%string in
  let op := "binary operator OR"%string in
  r <- checkChildrenForBinaryOperator n ;;
  match r with
  | None => nilNode
  | Some n =>
      object <- mustGetObject n ;;
      let dtObject := GetType object in
      ok <- validateBoolType dtObject object fn op ;;
      if negb ok then nilNode
      else
        subject <- mustGetSubject n ;;
        let dtSubject := GetType subject in
        ok <- validateBoolType dtSubject subject fn op ;;
        if negb ok then nilNode
        else
          let dt := GetType n in
          '(v1, ok) <- extractBoolOperand object fn op ;;
          if negb ok then nilNode
          else
            '(v2, ok) <- extractBoolOperand subject fn op ;;
            if negb ok then nilNode
            else
              let vo :=
                if Valid v1 && Valid v2 then Or v1 v2
                else if BoolValue_eqb v1 BoolValueTrue
                        || BoolValue_eqb v2 BoolValueTrue
                then BoolValueTrue
                else BoolValueInvalid in
              let r := if Valid vo then newBoolValueNode n vo else n in
              match ta with
              | Some (typeActionAssign adt) =>
                  if negb (DataType_Equal dt adt) then
                    elAppendTypeErrorAssignDataType n fn adt dt ;;
                    nilNode
                  else verifyTypeAction r fn dt ta
              | _ => verifyTypeAction r fn dt ta
              end
  end.

End Operators.

Section BinaryOperators.

Variable checkExpr : ExprNode -> option typeAction -> M (option ExprNode).

Definition validateOrderedType (dt : DataType) (n : ExprNode) (fn op : string)
    : M bool :=
  if negb (Pending dt) then
    let '(major, _) := DecomposeDataType dt in
    if (major =? DataTypeMajorBool)
       || (major =? DataTypeMajorAddress)
       || (major =? DataTypeMajorInt)
       || (major =? DataTypeMajorUint)
       || (major =? DataTypeMajorFixedBytes)
       || (major =? DataTypeMajorDynamicBytes)
       || IsFixedRange major
       || IsFixedRange major
    then ret true
    else elAppendTypeErrorOperatorDataType n fn op dt ;; ret false
  else ret true.

Definition elAppendTypeErrorOperandDataType (n : ExprNode) (fn op : string)
    (dtExpected dtGiven : DataType) : M unit :=
  Append (mkError (GetPosition n) (GetLength n) ErrorCategorySemantic
            ErrorCodeTypeError ErrorSeverityError fn
            (MsgCannotUseTypeWith dtGiven op dtExpected)).

(** inferBinaryOperatorType returns the node (its operands may have been
    replaced), the type and the success flag. *)
Definition inferBinaryOperatorType (n : ExprNode) (fn op : string)
    : M (ExprNode * DataType * bool) :=
  object <- mustGetObject n ;;
  let dtObject := GetType object in
  let dtObjectDetermined := negb (Pending dtObject) in
  subject <- mustGetSubject n ;;
  let dtSubject := GetType subject in
  let dtSubjectDetermined := negb (Pending dtSubject) in
  if dtObjectDetermined && dtSubjectDetermined then
    if negb (DataType_Equal dtObject dtSubject) then
      elAppendTypeErrorOperandDataType subject fn op dtObject dtSubject ;;
      ret (n, DataTypeBad, false)
    else ret (n, dtObject, true)
  else if dtObjectDetermined && negb dtSubjectDetermined then
    let assign := newTypeActionAssign dtObject in
    subject <- checkExpr subject assign ;;
    match subject with
    | None => ret (n, DataTypeBad, false)
    | Some subject => ret (SetSubject n subject, dtObject, true)
    end
  else if negb dtObjectDetermined && dtSubjectDetermined then
    let assign := newTypeActionAssign dtSubject in
    object <- checkExpr object assign ;;
    match object with
    | None => ret (n, DataTypeBad, false)
    | Some object => ret (SetObject n object, dtSubject, true)
    end
  else
    (* We cannot do type checking when both types are unknown. *)
    ret (n, DataTypePending, true).

(** The callers of inferBinaryOperatorType keep the pointers to the two
    operands they read before the call, and fold with them afterwards.  A
    value node that is checked again is updated in place and returned,
    except in two cases where a new node is returned and the old one is left
    with only its value normalized: an integer constant that becomes an
    address constant, and a decimal constant that is redirected to an
    integer constant.  [aliasAfterCheck old returned] is the node behind the
    old pointer, given the node that the second check returned. *)
Definition aliasAfterCheck (old returned : ExprNode) : ExprNode :=
  match old with
  | IntegerValueNode b ty a V =>
      match returned with
      | IntegerValueNode _ _ _ _ => returned
      | _ => IntegerValueNode b ty a (normalizeDecimal V)
      end
  | DecimalValueNode b ty V =>
      match returned with
      | DecimalValueNode _ _ _ => returned
      | _ => DecimalValueNode b ty (normalizeDecimal V)
      end
  | BoolValueNode _ _ | AddressValueNode _ _ | BytesValueNode _ _ _
  | NullValueNode _ _ => returned
  | _ => old
  end.

Definition elAppendTypeErrorOperandValueNode (n : ExprNode) (fn op : string)
    (nExpected : ExprNode) : M unit :=
  d <- describeValueNodeType n ;;
  dExpected <- describeValueNodeType nExpected ;;
  Append (mkError (GetPosition n) (GetLength n) ErrorCategorySemantic
            ErrorCodeTypeError ErrorSeverityError fn
            (MsgCannotUseValueWith d op dExpected)).

Definition compatibleValueNodes (expected given : ExprNode) : M bool :=
  match expected with
  | BoolValueNode _ _ =>
      match given with
      | BoolValueNode _ _ | NullValueNode _ _ => ret true
      | _ => ret false
      end
  | AddressValueNode _ _ =>
      match given with
      | AddressValueNode _ _ | NullValueNode _ _ => ret true
      | _ => ret false
      end
  | IntegerValueNode _ _ _ _ | DecimalValueNode _ _ _ =>
      match given with
      | IntegerValueNode _ _ _ _ | DecimalValueNode _ _ _
      | NullValueNode _ _ => ret true
      | _ => ret false
      end
  | BytesValueNode _ _ _ =>
      match given with
      | BytesValueNode _ _ _ | NullValueNode _ _ => ret true
      | _ => ret false
      end
  | NullValueNode _ _ => ret true
  | _ => panic
  end.

(** A NULL constant has no constant value: the nil interface, [None]. *)
Definition extractConstantValue (n : ExprNode) : M (option constantValue) :=
  match n with
  | BoolValueNode _ V => ret (Some (newConstantValueBool V))
  | AddressValueNode _ V => ret (Some (newConstantValueBytes V))
  | IntegerValueNode _ _ _ V => ret (Some (newConstantValueDecimal V))
  | DecimalValueNode _ _ V => ret (Some (newConstantValueDecimal V))
  | BytesValueNode _ _ V => ret (Some (newConstantValueBytes V))
  | NullValueNode _ _ => ret None
  | _ => panic
  end.

Definition newNilConstantValue (v : option constantValue) : option constantValue :=
  match v with
  | Some (constantValueBool _) => Some newConstantValueBoolFromNil
  | Some (constantValueBytes _) => Some newConstantValueBytesFromNil
  | Some (constantValueDecimal _) => Some newConstantValueDecimalFromNil
  | None => None
  end.

Definition foldRelationalOperator (n object subject : ExprNode) (fn op : string)
    (evalBool : BoolValue -> BoolValue -> BoolValue)
    (evalBytes : option (list byte) -> option (list byte) -> BoolValue)
    (evalDecimal : NullDecimal -> NullDecimal -> BoolValue)
    : M (option ExprNode) :=
  ok <- compatibleValueNodes object subject ;;
  if negb ok then
    elAppendTypeErrorOperandValueNode subject fn op object ;;
    nilNode
  else
    arg1 <- extractConstantValue object ;;
    arg2 <- extractConstantValue subject ;;
    (* Resolve nil interfaces. *)
    let '(arg1, arg2) :=
      match arg1, arg2 with
      | None, None => (Some newConstantValueBoolFromNil, Some newConstantValueBoolFromNil)
      | None, _ => (newNilConstantValue arg2, arg2)
      | _, None => (arg1, newNilConstantValue arg1)
      | _, _ => (arg1, arg2)
      end in
    (* Now we are sure that all interfaces are non-nil. *)
    vo <- match arg1, arg2 with
          | Some (constantValueBool v1), Some (constantValueBool v2) =>
              ret (evalBool v1 v2)
          | Some (constantValueBytes v1), Some (constantValueBytes v2) =>
              ret (evalBytes v1 v2)
          | Some (constantValueDecimal v1), Some (constantValueDecimal v2) =>
              ret (evalDecimal v1 v2)
          | _, _ => panic
          end ;;
    ret (Some (newBoolValueNode n vo)).

Definition checkRelationalOperator (n : ExprNode) (ta : option typeAction)
    (fn op : string) (requireOrdered : bool)
    (evalBool : BoolValue -> BoolValue -> BoolValue)
    (evalBytes : option (list byte) -> option (list byte) -> BoolValue)
    (evalDecimal : NullDecimal -> NullDecimal -> BoolValue)
    : M (option ExprNode) :=
  r <- checkChildrenForBinaryOperator checkExpr n ;;
  match r with
  | None => nilNode
  | Some n =>
      object <- mustGetObject n ;;
      let dtObject := GetType object in
      subject <- mustGetSubject n ;;
      let dtSubject := GetType subject in
      ok <- (if requireOrdered then
               ok <- validateOrderedType dtObject object fn op ;;
               if negb ok then ret false
               else validateOrderedType dtSubject subject fn op
             else ret true) ;;
      if negb ok then nilNode
      else
        '(n, _, ok) <- inferBinaryOperatorType n fn op ;;
        if negb ok then nilNode
        else
          object' <- mustGetObject n ;;
          subject' <- mustGetSubject n ;;
          let object := aliasAfterCheck object object' in
          let subject := aliasAfterCheck subject subject' in
          let dt := GetType n in
          if isValuer object && isValuer subject then
            node <- foldRelationalOperator n object subject fn op
                      evalBool evalBytes evalDecimal ;;
            match node with
            | None => nilNode
            | Some node => verifyTypeAction node fn dt ta
            end
          else verifyTypeAction n fn dt ta
  end.

Definition evalBytesWith (f : comparison -> bool)
    (v1 v2 : option (list byte)) : BoolValue :=
  match v1, v2 with
  | Some v1, Some v2 => NewBoolValueFromBool (f (bytes_Compare v1 v2))
  | _, _ => BoolValueUnknown
  end.

Definition evalDecimalWith (f : Decimal -> Decimal -> bool)
    (v1 v2 : NullDecimal) : BoolValue :=
  if negb (NValid v1) || negb (NValid v2) then BoolValueUnknown
  else NewBoolValueFromBool (f (NDecimal v1) (NDecimal v2)).

Definition checkGreaterOrEqualOperator (n : ExprNode) (ta : option typeAction)
    : M (option ExprNode) :=
  let fn := "CheckGreaterOrEqualOperator"%string in
  let op := "binary operator >="%string in
  checkRelationalOperator n ta fn op true
    (fun v1 v2 => BoolValue_GreaterOrEqual v1 v2)
    (evalBytesWith (fun c => match c with Lt => false | _ => true end))
    (evalDecimalWith (fun d1 d2 => GreaterThanOrEqual d1 d2)).

Definition checkLessOrEqualOperator (n : ExprNode) (ta : option typeAction)
    : M (option ExprNode) :=
  let fn := "CheckLessOrEqualOperator"%string in
  let op := "binary operator <="%string in
  checkRelationalOperator n ta fn op true
    (fun v1 v2 => BoolValue_LessOrEqual v1 v2)
    (evalBytesWith (fun c => match c with Gt => false | _ => true end))
    (evalDecimalWith (fun d1 d2 => GreaterThanOrEqual d1 d2)).

Definition checkNotEqualOperator (n : ExprNode) (ta : option typeAction)
    : M (option ExprNode) :=
  let fn := "CheckNotEqualOperator"%string in
  let op := "binary operator <>"%string in
  checkRelationalOperator n ta fn op false
    (fun v1 v2 => BoolValue_NotEqual v1 v2)
    (evalBytesWith (fun c => match c with Eq => false | _ => true end))
    (evalDecimalWith (fun d1 d2 => negb (Equal d1 d2))).

Definition evalEqualBool (v1 v2 : BoolValue) : BoolValue :=
  BoolValue_Equal v1 v2.

Definition evalEqualBytes : option (list byte) -> option (list byte) -> BoolValue :=
  evalBytesWith (fun c => match c with Eq => true | _ => false end).

Definition evalEqualDecimal : NullDecimal -> NullDecimal -> BoolValue :=
  evalDecimalWith (fun d1 d2 => Equal d1 d2).

Definition checkEqualOperator (n : ExprNode) (ta : option typeAction)
    : M (option ExprNode) :=
  let fn := "CheckEqualOperator"%string in
  let op := "binary operator ="%string in
  checkRelationalOperator n ta fn op false
    evalEqualBool evalEqualBytes evalEqualDecimal.

Definition checkGreaterOperator (n : ExprNode) (ta : option typeAction)
    : M (option ExprNode) :=
  let fn := "CheckGreaterOperator"%string in
  let op := "binary operator >"%string in
  checkRelationalOperator n ta fn op true
    (fun v1 v2 => BoolValue_Greater v1 v2)
    (evalBytesWith (fun c => match c with Gt => true | _ => false end))
    (evalDecimalWith (fun d1 d2 => GreaterThan d1 d2)).

Definition checkLessOperator (n : ExprNode) (ta : option typeAction)
    : M (option ExprNode) :=
  let fn := "CheckLessOperator"%string in
  let op := "binary operator <"%string in
  checkRelationalOperator n ta fn op true
    (fun v1 v2 => BoolValue_Greater v1 v2)
    (evalBytesWith (fun c => match c with Lt => true | _ => false end))
    (evalDecimalWith (fun d1 d2 => LessThan d1 d2)).

End BinaryOperators.

Section ConcatAndArithmetic.

Variable checkExpr : ExprNode -> option typeAction -> M (option ExprNode).

Definition validateBytesType (dt : DataType) (n : ExprNode) (fn op : string)
    : M bool :=
  if negb (Pending dt) then
    let '(major, _) := DecomposeDataType dt in
    if (major =? DataTypeMajorFixedBytes) || (major =? DataTypeMajorDynamicBytes)
    then ret true
    else elAppendTypeErrorOperatorDataType n fn op dt ;; ret false
  else ret true.

Inductive extractBytesValueStatus : Type :=
| extractBytesValueStatusError
| extractBytesValueStatusBytes
| extractBytesValueStatusNullWithType
| extractBytesValueStatusNullWithoutType.

Definition extractBytesValue (n : ExprNode) (fn op : string)
    : M (list byte * extractBytesValueStatus) :=
  match n with
  | BytesValueNode _ _ V => ret (V, extractBytesValueStatusBytes)
  | NullValueNode _ ty =>
      if Pending ty
      then ret ([], extractBytesValueStatusNullWithoutType)
      else ret ([], extractBytesValueStatusNullWithType)
  | BoolValueNode _ _ | AddressValueNode _ _ | IntegerValueNode _ _ _ _
  | DecimalValueNode _ _ _ =>
      elAppendTypeErrorOperatorValueNode n fn op ;;
      ret ([], extractBytesValueStatusError)
  | _ => panic
  end.

(** The closures of checkConcatOperator. *)
Definition describeBytesMajor (major : DataTypeMajor) : M string :=
  if major =? DataTypeMajorFixedBytes then ret "fixed-size"%string
  else if major =? DataTypeMajorDynamicBytes then ret "dynamically-sized"%string
  else panic.

Definition reportMismatch (fn op : string) (n : ExprNode)
    (major1 major2 : DataTypeMajor) : M unit :=
  d1 <- describeBytesMajor major1 ;;
  d2 <- describeBytesMajor major2 ;;
  Append (mkError (GetPosition n) (GetLength n) ErrorCategorySemantic
            ErrorCodeTypeError ErrorSeverityError fn
            (MsgCannotUseBetweenBytes op d1 d2)).

Definition reportTooBig (fn op : string) (n : ExprNode) (dt1 dt2 : DataType)
    : M unit :=
  Append (mkError (GetPosition n) (GetLength n) ErrorCategorySemantic
            ErrorCodeTypeError ErrorSeverityError fn
            (MsgResultTooLong op dt1 dt2)) ;;
  d <- describeBytesMajor DataTypeMajorDynamicBytes ;;
  Append (mkError (GetPosition n) (GetLength n) ErrorCategoryNil
            ErrorCodeNil ErrorSeverityNote fn
            (MsgConvertToDynamic d)).

Definition checkConcatOperator_infer (fn op : string) (n : ExprNode)
    (dtObject dtSubject : DataType) : M (DataType * bool) :=
  if Pending dtObject then panic
  else if Pending dtSubject then panic
  else
    let '(majorObject, minorObject) := DecomposeDataType dtObject in
    let '(majorSubject, minorSubject) := DecomposeDataType dtSubject in
    if negb (majorObject =? majorSubject) then
      reportMismatch fn op n majorObject majorSubject ;;
      ret (DataTypeBad, false)
    else if majorObject =? DataTypeMajorFixedBytes then
      let sizeObject := minorObject + 1 in
      let sizeSubject := minorSubject + 1 in
      let sizeOperator := sizeObject + sizeSubject in
      if 32 <? sizeOperator then
        reportTooBig fn op n dtObject dtSubject ;;
        ret (DataTypeBad, false)
      else
        let majorOperator := DataTypeMajorFixedBytes in
        let minorOperator := uint8 (sizeOperator - 1) in
        ret (ComposeDataType majorOperator minorOperator, true)
    else if majorObject =? DataTypeMajorDynamicBytes then
      ret (dtObject, true)
    else panic.

(** The action with which the pending operand of a concatenation is
    checked again, given the type of the other operand. *)
Definition checkConcatOperator_action (dt : DataType) : M (option typeAction) :=
  let '(major, _) := DecomposeDataType dt in
  if major =? DataTypeMajorFixedBytes then
    ret (newTypeActionInferWithMajor DataTypeMajorFixedBytes)
  else if major =? DataTypeMajorDynamicBytes then
    ret (newTypeActionAssign dt)
  else panic.

(** The folding step of checkConcatOperator: [None] is the early return
    of nil, otherwise the node to return. *)
Definition checkConcatOperator_fold (fn op : string) (n object subject : ExprNode)
    (dt : DataType) : M (option ExprNode) :=
  if isValuer object && isValuer subject then
    '(v1, status) <- extractBytesValue object fn op ;;
    match status with
    | extractBytesValueStatusError => nilNode
    | extractBytesValueStatusNullWithoutType =>
        elAppendTypeErrorOperatorValueNode object fn op ;;
        nilNode
    | _ =>
        let null := match status with
                    | extractBytesValueStatusNullWithType => true
                    | _ => false
                    end in
        '(v2, status) <- extractBytesValue subject fn op ;;
        match status with
        | extractBytesValueStatusError => nilNode
        | extractBytesValueStatusNullWithoutType =>
            elAppendTypeErrorOperatorValueNode subject fn op ;;
            nilNode
        | _ =>
            let null := match status with
                        | extractBytesValueStatusNullWithType => true
                        | _ => null
                        end in
            let r :=
              if null then NullValueNode emptyBase DataTypePending
              else BytesValueNode emptyBase DataTypePending (v1 ++ v2) in
            ret (Some (SetType (copySpan r n) dt))
        end
    end
  else ret (Some n).

Definition checkConcatOperator (n : ExprNode) (ta : option typeAction)
    : M (option ExprNode) :=
  let fn := "CheckConcatOperator"%string in
  let op := "binary operator ||"%string in
  r <- checkChildrenForBinaryOperator checkExpr n ;;
  match r with
  | None => nilNode
  | Some n =>
      object <- mustGetObject n ;;
      let dtObject := GetType object in
      ok <- validateBytesType dtObject object fn op ;;
      if negb ok then nilNode
      else
        subject <- mustGetSubject n ;;
        let dtSubject := GetType subject in
        ok <- validateBytesType dtSubject subject fn op ;;
        if negb ok then nilNode
        else
          let dtObjectDetermined := negb (Pending dtObject) in
          let dtSubjectDetermined := negb (Pending dtSubject) in
          (* We cannot use inferBinaryOperatorType because the two sides of
             the operator may have different types. *)
          typed <-
            (if dtObjectDetermined && dtSubjectDetermined then
               '(dt, ok) <- checkConcatOperator_infer fn op n dtObject dtSubject ;;
               if negb ok then ret None
               else ret (Some (SetType n dt, object, subject))
             else if dtObjectDetermined && negb dtSubjectDetermined then
               action <- checkConcatOperator_action dtObject ;;
               subject <- checkExpr subject action ;;
               match subject with
               | None => ret None
               | Some subject =>
                   let n := SetSubject n subject in
                   let dtSubject := GetType subject in
                   '(dt, ok) <- checkConcatOperator_infer fn op n dtObject dtSubject ;;
                   if negb ok then ret None
                   else ret (Some (SetType n dt, object, subject))
               end
             else if negb dtObjectDetermined && dtSubjectDetermined then
               action <- checkConcatOperator_action dtSubject ;;
               object <- checkExpr object action ;;
               match object with
               | None => ret None
               | Some object =>
                   let n := SetObject n object in
                   let dtObject := GetType object in
                   '(dt, ok) <- checkConcatOperator_infer fn op n dtObject dtSubject ;;
                   if negb ok then ret None
                   else ret (Some (SetType n dt, object, subject))
               end
             else
               (* Keep it undetermined if both sides are pending. *)
               ret (Some (n, object, subject))) ;;
          match typed with
          | None => nilNode
          | Some (n, object, subject) =>
              let dt := GetType n in
              r <- checkConcatOperator_fold fn op n object subject dt ;;
              match r with
              | None => nilNode
              | Some r => delegateTypeAction checkExpr r fn dt ta
              end
          end
  end.

(** The closure [calc] of checkArithmeticBinaryOperator.  The library
    operation behind [eval] may abort ([None]). *)
Definition checkArithmeticBinaryOperator_calc (n : ExprNode) (fn : string)
    (o : CheckOptions) (dt : DataType)
    (eval : Decimal -> Decimal -> option Decimal) (v1 v2 : Decimal)
    : M (Decimal * bool) :=
  match eval v1 v2 with
  | None => panic
  | Some r =>
      let finish r :=
        let r := normalizeDecimal r in
        if negb (safeDecimalRange r) then
          elAppendConstantTooLongError n fn r ;;
          ret (r, false)
        else ret (r, true) in
      if negb (Pending dt) then
        '(min, max) <- mustGetMinMax dt ;;
        (* The crop and its warning follow the range test: they are not
           inside it. *)
        let crop :=
          cropped <- cropDecimal dt r ;;
          elAppendOverflowWarning n fn dt r cropped ;;
          finish cropped in
        if LessThan r min || GreaterThan r max then
          if hasOption o CheckWithSafeMath then
            elAppendOverflowError n fn dt r min max ;;
            ret (r, false)
          else crop
        else crop
      else finish r
  end.

Definition checkArithmeticBinaryOperator_fold (fn op : string) (o : CheckOptions)
    (division : bool) (eval : Decimal -> Decimal -> option Decimal)
    (n object subject : ExprNode) (dt : DataType) : M (option ExprNode) :=
  if isValuer object && isValuer subject then
    '(v1, status) <- extractNumberValue object fn op ;;
    match status with
    | extractNumberValueStatusError => nilNode
    | extractNumberValueStatusNullWithoutType =>
        elAppendTypeErrorOperatorValueNode object fn op ;;
        nilNode
    | _ =>
        let null := match status with
                    | extractNumberValueStatusNullWithType => true
                    | _ => false
                    end in
        let decimal := match status with
                       | extractNumberValueStatusDecimal => true
                       | _ => false
                       end in
        '(v2, status) <- extractNumberValue subject fn op ;;
        match status with
        | extractNumberValueStatusError => nilNode
        | extractNumberValueStatusNullWithoutType =>
            elAppendTypeErrorOperatorValueNode subject fn op ;;
            nilNode
        | _ =>
            let null := match status with
                        | extractNumberValueStatusNullWithType => true
                        | _ => null
                        end in
            let decimal := match status with
                           | extractNumberValueStatusDecimal => true
                           | _ => decimal
                           end in
            if null then
              let node := NullValueNode emptyBase DataTypePending in
              ret (Some (SetType (copySpan node n) dt))
            else if division && IsZero v2 then
              Append (mkError (GetPosition subject) (GetLength subject)
                        ErrorCategorySemantic ErrorCodeDividedByZero
                        ErrorSeverityError fn MsgDivisionByZero) ;;
              nilNode
            else
              '(vo, ok) <- checkArithmeticBinaryOperator_calc n fn o dt eval v1 v2 ;;
              if negb ok then nilNode
              else
                let node :=
                  if division || decimal
                  then DecimalValueNode emptyBase DataTypePending vo
                  else IntegerValueNode emptyBase DataTypePending false vo in
                ret (Some (SetType (copySpan node n) dt))
        end
    end
  else ret (Some n).

Definition checkArithmeticBinaryOperator (o : CheckOptions) (n : ExprNode)
    (ta : option typeAction) (fn op : string) (division : bool)
    (eval : Decimal -> Decimal -> option Decimal) : M (option ExprNode) :=
  r <- checkChildrenForBinaryOperator checkExpr n ;;
  match r with
  | None => nilNode
  | Some n =>
      object <- mustGetObject n ;;
      let dtObject := GetType object in
      ok <- validateNumberType dtObject object fn op ;;
      if negb ok then nilNode
      else
        subject <- mustGetSubject n ;;
        let dtSubject := GetType subject in
        ok <- validateNumberType dtSubject subject fn op ;;
        if negb ok then nilNode
        else
          '(n, dt, ok) <- inferBinaryOperatorType checkExpr n fn op ;;
          if negb ok then nilNode
          else
            let n := SetType n dt in
            object' <- mustGetObject n ;;
            subject' <- mustGetSubject n ;;
            let object := aliasAfterCheck object object' in
            let subject := aliasAfterCheck subject subject' in
            let dt := GetType n in
            r <- checkArithmeticBinaryOperator_fold fn op o division eval
                   n object subject dt ;;
            match r with
            | None => nilNode
            | Some r => delegateTypeAction checkExpr r fn dt ta
            end
  end.

Definition checkAddOperator (o : CheckOptions) (n : ExprNode)
    (ta : option typeAction) : M (option ExprNode) :=
  let fn := "CheckAddOperator"%string in
  let op := "binary operator +"%string in
  checkArithmeticBinaryOperator o n ta fn op false
    (fun v1 v2 => Some (Add v1 v2)).

Definition checkSubOperator (o : CheckOptions) (n : ExprNode)
    (ta : option typeAction) : M (option ExprNode) :=
  let fn := "CheckSubOperator"%string in
  let op := "binary operator -"%string in
  checkArithmeticBinaryOperator o n ta fn op false
    (fun v1 v2 => Some (Sub v1 v2)).

Definition checkMulOperator (o : CheckOptions) (n : ExprNode)
    (ta : option typeAction) : M (option ExprNode) :=
  let fn := "CheckMulOperator"%string in
  let op := "binary operator *"%string in
  checkArithmeticBinaryOperator o n ta fn op false
    (fun v1 v2 => Some (Mul v1 v2)).

Definition checkDivOperator (o : CheckOptions) (n : ExprNode)
    (ta : option typeAction) : M (option ExprNode) :=
  let fn := "CheckDivOperator"%string in
  let op := "binary operator /"%string in
  checkArithmeticBinaryOperator o n ta fn op true
    (fun v1 v2 =>
       match QuoRem v1 v2 MaxFractionalPartDigits with
       | Some (q, _) => Some q
       | None => None
       end).

Definition checkModOperator (o : CheckOptions) (n : ExprNode)
    (ta : option typeAction) : M (option ExprNode) :=
  let fn := "CheckModOperator"%string in
  let op := "binary operator %"%string in
  checkArithmeticBinaryOperator o n ta fn op true
    (fun v1 v2 =>
       match QuoRem v1 v2 0 with
       | Some (_, r) => Some r
       | None => None
       end).

End ConcatAndArithmetic.

(** *** The dispatcher *)

(** checkExpr calls the check function of the node kind, which calls
    checkExpr on the operands and, through delegateTypeAction, on the node it
    is about to return: the recursion is not structural, and [fuel] bounds
    its depth. *)
Fixpoint checkExpr (fuel : nat) (s : Table) (o : CheckOptions) (n : ExprNode)
    (ta : option typeAction) : M (option ExprNode) :=
  match fuel with
  | O => outOfFuel
  | S fuel' =>
      let self := checkExpr fuel' s o in
      match n with
      | IdentifierNode b ty Name Desc => checkVariable b ty Name Desc s o ta
      | BoolValueNode b V => checkBoolValue b V o ta
      | AddressValueNode b V => checkAddressValue b V o ta
      | IntegerValueNode b ty IsAddress V => checkIntegerValue b ty IsAddress V o ta
      | DecimalValueNode b ty V => checkDecimalValue b ty V o ta
      | BytesValueNode b ty V => checkBytesValue b ty V o ta
      | NullValueNode b ty => checkNullValue b ty o ta
      | PosOperatorNode _ _ _ => checkPosOperator self n ta
      | NegOperatorNode _ _ _ => checkNegOperator self o n ta
      | NotOperatorNode _ _ => checkNotOperator self n ta
      | ParenOperatorNode _ _ _ => checkParenOperator self n ta
      | AndOperatorNode _ _ _ => checkAndOperator self n ta
      | OrOperatorNode _ _ _ => checkOrOperator self n ta
      | GreaterOrEqualOperatorNode _ _ _ => checkGreaterOrEqualOperator self n ta
      | LessOrEqualOperatorNode _ _ _ => checkLessOrEqualOperator self n ta
      | NotEqualOperatorNode _ _ _ => checkNotEqualOperator self n ta
      | EqualOperatorNode _ _ _ => checkEqualOperator self n ta
      | GreaterOperatorNode _ _ _ => checkGreaterOperator self n ta
      | LessOperatorNode _ _ _ => checkLessOperator self n ta
      | ConcatOperatorNode _ _ _ _ => checkConcatOperator self n ta
      | AddOperatorNode _ _ _ _ => checkAddOperator self o n ta
      | SubOperatorNode _ _ _ _ => checkSubOperator self o n ta
      | MulOperatorNode _ _ _ _ => checkMulOperator self o n ta
      | DivOperatorNode _ _ _ _ => checkDivOperator self o n ta
      | ModOperatorNode _ _ _ _ => checkModOperator self o n ta
      end
  end.

End Checker.

End checker.

Import checker.

(* ================================================================== *)
(** ** Vocabulary of the statements *)

(** A type action accepts a decided type unless it assigns another one:
    this is when verifyTypeAction lets a node through. *)
Definition accepts (ta : option typeAction) (dt : DataType) : bool :=
  match ta with
  | Some (typeActionAssign adt) => DataType_Equal dt adt
  | _ => true
  end.

(** The boolean constants: a boolean literal, or a NULL that is untyped
    or typed as a boolean.  A NULL reads as Unknown. *)
Definition isBoolConstant (n : ExprNode) : bool :=
  match n with
  | BoolValueNode _ v => Valid v
  | NullValueNode _ ty =>
      Pending ty || (fst (DecomposeDataType ty) =? DataTypeMajorBool)
  | _ => false
  end.

Definition readBool (n : ExprNode) : BoolValue :=
  match n with BoolValueNode _ v => v | _ => BoolValueUnknown end.

(** The fixed-size bytes type of [width] bytes: the minor is the width
    minus one. *)
Definition FixedBytes (width : Z) : DataType :=
  ComposeDataType DataTypeMajorFixedBytes (width - 1).

(** An operand that can carry a bytes type: anything but a boolean,
    address or number constant. *)
Definition isBytesOperand (n : ExprNode) : bool :=
  match n with
  | BoolValueNode _ _ | AddressValueNode _ _ | IntegerValueNode _ _ _ _
  | DecimalValueNode _ _ _ => false
  | _ => true
  end.

(** The numeric categories: int, uint and the two fixed-point families. *)
Definition isNumberType (dt : DataType) : bool :=
  let '(major, _) := DecomposeDataType dt in
  (major =? DataTypeMajorInt) || (major =? DataTypeMajorUint)
  || IsFixedRange major || IsUfixedRange major.

Definition isNumberConstant (n : ExprNode) : bool :=
  match n with
  | IntegerValueNode _ _ _ _ | DecimalValueNode _ _ _ => true
  | _ => false
  end.



Definition isTypedNull (n : ExprNode) : bool :=
  match n with
  | NullValueNode _ ty => negb (Pending ty)
  | _ => false
  end.





(* ================================================================== *)
(** ** Example inputs *)

Module example.

(** The digit limits of the examples.  Any limit that admits the literals
    below gives the same results. *)
Definition digits : Z := 200.

Definition run := checkExpr digits digits.

Definition permissive : CheckOptions := 0.

(** The span of the source text [text] found at [position]. *)
Definition span (position : Z) (text : string) : NodeBase :=
  mkNodeBase position (len (list_byte_of_string text)) (list_byte_of_string text).

Definition int8 : DataType := ComposeDataType DataTypeMajorInt 0.
Definition bytes2 : DataType := ComposeDataType DataTypeMajorFixedBytes 1.
Definition bytes3 : DataType := ComposeDataType DataTypeMajorFixedBytes 2.
Definition bytes30 : DataType := ComposeDataType DataTypeMajorFixedBytes 29.
Definition bytes31 : DataType := ComposeDataType DataTypeMajorFixedBytes 30.
Definition fixed128x18 : DataType := ComposeDataType (DataTypeMajorFixed + 15) 18.
Definition ufixed128x18 : DataType := ComposeDataType (DataTypeMajorUfixed + 15) 18.

(** Leaves as the parser makes them: no type yet. *)
Definition integer (position : Z) (text : string) (v : Z) : ExprNode :=
  IntegerValueNode (span position text) DataTypePending false (New v 0).
Definition column (position : Z) (name : string) : ExprNode :=
  IdentifierNode (span position name) DataTypePending (list_byte_of_string name) None.

(** A column after its check: typed, and bound to column [i] of the table. *)
Definition checkedColumn (position : Z) (name : string) (i : nat) (dt : DataType)
    : ExprNode :=
  IdentifierNode (span position name) dt (list_byte_of_string name) (Some i).

(** NULL constants that have been given a type. *)
Definition boolNull (position : Z) : ExprNode :=
  NullValueNode (span position "NULL") DataTypeBool.
Definition int8Null (position : Z) : ExprNode :=
  NullValueNode (span position "NULL") int8.

(** Arithmetic. *)
Definition typedOnePlusTwo : ExprNode :=
  AddOperatorNode (span 0 "1 + 2") DataTypePending
    (IntegerValueNode (span 0 "1") int8 false (New 1 0))
    (integer 4 "2" 2).
Definition nullDivZero : ExprNode :=
  DivOperatorNode (span 0 "NULL / 0") DataTypePending (int8Null 0) (integer 7 "0" 0).
Definition belowFixedMin : ExprNode :=
  NegOperatorNode (span 0 "-1000000000000000000000.5") DataTypePending
    (DecimalValueNode (span 1 "1000000000000000000000.5") DataTypePending
       (New 10000000000000000000005 (-1))).
Definition addressLiteral : ExprNode :=
  IntegerValueNode (span 3 "0x00000000000000000000000000000000000004d2")
    DataTypePending true (New 1234 0).

(** Comparisons. *)
Definition oneLessOrEqualTwo : ExprNode :=
  LessOrEqualOperatorNode (span 0 "1 <= 2") (integer 0 "1" 1) (integer 5 "2" 2).
Definition twoLessOrEqualOne : ExprNode :=
  LessOrEqualOperatorNode (span 0 "2 <= 1") (integer 0 "2" 2) (integer 5 "1" 1).
Definition trueLessFalse : ExprNode :=
  LessOperatorNode (span 0 "TRUE < FALSE")
    (BoolValueNode (span 0 "TRUE") BoolValueTrue)
    (BoolValueNode (span 7 "FALSE") BoolValueFalse).
Definition ufixedTable : Table :=
  [mkColumn (list_byte_of_string "a") ufixed128x18;
   mkColumn (list_byte_of_string "b") ufixed128x18].
Definition fixedTable : Table :=
  [mkColumn (list_byte_of_string "a") fixed128x18;
   mkColumn (list_byte_of_string "b") fixed128x18].
Definition aLessB : ExprNode :=
  LessOperatorNode (span 0 "a < b") (column 0 "a") (column 4 "b").

(** Logic. *)
Definition falseAndNull : ExprNode :=
  AndOperatorNode (span 0 "FALSE AND NULL")
    (BoolValueNode (span 0 "FALSE") BoolValueFalse) (boolNull 10).
Definition nullOrTrue : ExprNode :=
  OrOperatorNode (span 0 "NULL OR TRUE")
    (boolNull 0) (BoolValueNode (span 8 "TRUE") BoolValueTrue).

(** Concatenation. *)
Definition bytesTable : Table :=
  [mkColumn (list_byte_of_string "a") bytes2;
   mkColumn (list_byte_of_string "b") bytes30;
   mkColumn (list_byte_of_string "c") bytes31].
Definition aConcatB : ExprNode :=
  ConcatOperatorNode (span 0 "a || b") DataTypePending (column 0 "a") (column 5 "b").
Definition aConcatC : ExprNode :=
  ConcatOperatorNode (span 0 "a || c") DataTypePending (column 0 "a") (column 5 "c").
Definition aConcatBeef : ExprNode :=
  ConcatOperatorNode (span 0 "a || x'beef'") DataTypePending
    (column 0 "a")
    (BytesValueNode (span 5 "x'beef'") DataTypePending [xbe; xef]).

End example.

(* ================================================================== *)
(** ** Properties of the checker *)

Section Properties.

(** The properties hold for every value of the two digit limits. *)
Variable MaxIntegerPartDigits : Z.
Variable MaxFractionalPartDigits : Z.

Abbreviation check := (checkExpr MaxIntegerPartDigits MaxFractionalPartDigits).


(** *** Composing and decomposing data types *)

Lemma ComposeDataType_add major minor :
  0 <= major < 256 -> 0 <= minor < 256 ->
  ComposeDataType major minor = major * 256 + minor.
Proof.
  intros Hm Hn. unfold ComposeDataType, uint8.
  rewrite !Z.mod_small by lia.
  assert (Z.land (Z.shiftl major 8) minor = 0) as Hland.
  { apply Z.bits_inj'. intros n Hn0. rewrite Z.land_spec, Z.bits_0.
    destruct (Z.ltb_spec n 8).
    - rewrite Z.shiftl_spec_low by lia. reflexivity.
    - rewrite (Z.bits_above_log2 minor n); [apply andb_false_r | lia |].
      destruct (Z.eq_dec minor 0) as [->|]; [simpl; lia|].
      apply Z.lt_le_trans with 8; [|lia].
      apply Z.log2_lt_pow2; lia. }
  pose proof (Z.add_lor_land (Z.shiftl major 8) minor) as Hadd.
  rewrite Hland in Hadd. rewrite Z.shiftl_mul_pow2 in * by lia.
  change (2 ^ 8) with 256 in *. lia.
Qed.

Lemma DecomposeDataType_Compose major minor :
  0 <= major < 256 -> 0 <= minor < 256 ->
  DecomposeDataType (ComposeDataType major minor) = (major, minor).
Proof.
  intros Hm Hn. rewrite ComposeDataType_add by assumption.
  unfold DecomposeDataType, uint16.
  rewrite Z.mod_small by lia.
  rewrite Z.shiftr_div_pow2 by lia. change (2 ^ 8) with 256.
  change 255 with (Z.ones 8). rewrite Z.land_ones by lia. change (2 ^ 8) with 256.
  f_equal.
  - symmetry. apply Z.div_unique with minor; lia.
  - symmetry. apply Z.mod_unique with major; lia.
Qed.

(** *** Type actions and spans *)

Lemma verifyTypeAction_accepts n fn dt ta el :
  accepts ta dt = true ->
  verifyTypeAction n fn dt ta el = (Done (Some n), el).
Proof.
  unfold accepts, verifyTypeAction. destruct ta as [[| | |adt]|]; try reflexivity.
  intros ->. reflexivity.
Qed.

Lemma base_eta b : mkNodeBase (Position b) (Length b) (Token b) = b.
Proof. destruct b; reflexivity. Qed.

(** *** AND and OR over boolean constants *)

Lemma validateBoolType_ok dt n fn op el :
  Pending dt || (fst (DecomposeDataType dt) =? DataTypeMajorBool) = true ->
  validateBoolType dt n fn op el = (Done true, el).
Proof.
  unfold validateBoolType. destruct (Pending dt); [reflexivity|].
  cbn [orb negb]. destruct (DecomposeDataType dt) as [major minor].
  cbn [fst]. intros ->. reflexivity.
Qed.

Lemma validateBoolType_constant x n fn op el :
  isBoolConstant x = true ->
  validateBoolType (GetType x) n fn op el = (Done true, el).
Proof.
  destruct x; try discriminate; cbn [isBoolConstant GetType]; intros H.
  - reflexivity.
  - apply validateBoolType_ok, H.
Qed.

Lemma extractBoolOperand_constant x fn op el :
  isBoolConstant x = true ->
  extractBoolOperand x fn op el = (Done (readBool x, true), el)
  /\ Valid (readBool x) = true.
Proof.
  destruct x; try discriminate; cbn; intros H; auto.
Qed.

(** C9.  AND and OR absorb Unknown.  The two operands have been checked
    and are boolean constants [x'] and [y'] (a boolean literal, or a NULL,
    which reads as Unknown).  If one of them is the constant False, AND
    folds to the constant False, and if one of them is the constant True, OR
    folds to the constant True, whatever the other operand is.  The folded
    node has the span of the operator and nothing is appended to the
    diagnostics of the operands. *)
Theorem and_or_absorb_unknown fuel s o b x y x' y' ta el el1 el2 :
  check fuel s o x None el = (Done (Some x'), el1) ->
  check fuel s o y None el1 = (Done (Some y'), el2) ->
  isBoolConstant x' = true -> isBoolConstant y' = true ->
  accepts ta DataTypeBool = true ->
  (readBool x' = BoolValueFalse \/ readBool y' = BoolValueFalse ->
   check (S fuel) s o (AndOperatorNode b x y) ta el
   = (Done (Some (BoolValueNode b BoolValueFalse)), el2)) /\
  (readBool x' = BoolValueTrue \/ readBool y' = BoolValueTrue ->
   check (S fuel) s o (OrOperatorNode b x y) ta el
   = (Done (Some (BoolValueNode b BoolValueTrue)), el2)).
Proof.
  intros Hx Hy Cx Cy Hta.
  split; intros Hv; cbn [checkExpr];
    unfold checkAndOperator, checkOrOperator, checkChildrenForBinaryOperator, bind,
      mustGetObject, mustGetSubject, ret; cbn [GetObject GetSubject SetObject SetSubject];
    rewrite Hx; cbn [SetObject GetSubject]; rewrite Hy.
  - cbn [GetObject GetSubject SetSubject].
    rewrite (validateBoolType_constant _ _ _ _ _ Cx); cbn [negb].
    rewrite (validateBoolType_constant _ _ _ _ _ Cy); cbn [negb].
    destruct (extractBoolOperand_constant x' "CheckAndOperator" "binary operator AND" el2 Cx) as [Ex Vx].
    destruct (extractBoolOperand_constant y' "CheckAndOperator" "binary operator AND" el2 Cy) as [Ey Vy].
    rewrite Ex; cbv beta iota; cbn [negb]. rewrite Ey; cbv beta iota; cbn [negb].
    rewrite Vx, Vy. cbn [andb].
    assert (And (readBool x') (readBool y') = BoolValueFalse) as ->.
    { destruct Hv as [H | H]; rewrite H in *;
      [destruct (readBool y') | destruct (readBool x')]; try reflexivity; discriminate. }
    cbn [Valid GetType]. rewrite verifyTypeAction_accepts by assumption.
    unfold newBoolValueNode, GetPosition, GetLength, GetToken. cbn [GetBase].
    rewrite base_eta. reflexivity.
  - cbn [GetObject GetSubject SetSubject].
    rewrite (validateBoolType_constant _ _ _ _ _ Cx); cbn [negb].
    rewrite (validateBoolType_constant _ _ _ _ _ Cy); cbn [negb].
    destruct (extractBoolOperand_constant x' "CheckOrOperator" "binary operator OR" el2 Cx) as [Ex Vx].
    destruct (extractBoolOperand_constant y' "CheckOrOperator" "binary operator OR" el2 Cy) as [Ey Vy].
    rewrite Ex; cbv beta iota; cbn [negb]. rewrite Ey; cbv beta iota; cbn [negb].
    rewrite Vx, Vy. cbn [andb].
    assert (Or (readBool x') (readBool y') = BoolValueTrue) as ->.
    { destruct Hv as [H | H]; rewrite H in *;
      [destruct (readBool y') | destruct (readBool x')]; try reflexivity; discriminate. }
    cbn [Valid GetType].
    assert (Hv' : verifyTypeAction (newBoolValueNode (OrOperatorNode b x' y') BoolValueTrue)
              "CheckOrOperator" DataTypeBool ta el2
            = (Done (Some (BoolValueNode b BoolValueTrue)), el2)).
    { rewrite verifyTypeAction_accepts by assumption.
      unfold newBoolValueNode, GetPosition, GetLength, GetToken. cbn [GetBase].
      rewrite base_eta. reflexivity. }
    destruct ta as [[| | |adt]|]; try exact Hv'.
    cbn [accepts] in Hta. rewrite Hta. cbn [negb]. exact Hv'.
Qed.

(** *** Concatenation of fixed-size bytes *)

Lemma FixedBytes_decompose w :
  1 <= w <= 256 ->
  DecomposeDataType (FixedBytes w) = (DataTypeMajorFixedBytes, w - 1).
Proof.
  intros. unfold FixedBytes. apply DecomposeDataType_Compose;
    unfold DataTypeMajorFixedBytes; lia.
Qed.

Lemma FixedBytes_not_pending w : 1 <= w <= 256 -> Pending (FixedBytes w) = false.
Proof.
  intros. unfold Pending, FixedBytes.
  rewrite ComposeDataType_add by (unfold DataTypeMajorFixedBytes; lia).
  apply Z.eqb_neq. unfold DataTypeMajorFixedBytes. cbv [DataTypePending ComposeDataType].
  change (Z.lor (Z.shiftl (uint8 DataTypeMajorPending) 8) (uint8 DataTypeMinorDontCare)) with 0.
  lia.
Qed.

Lemma validateBytesType_FixedBytes w n fn op el :
  1 <= w <= 256 ->
  validateBytesType (FixedBytes w) n fn op el = (Done true, el).
Proof.
  intros. unfold validateBytesType.
  rewrite FixedBytes_not_pending, FixedBytes_decompose by assumption.
  reflexivity.
Qed.

Lemma concat_fold_typed fn op n x y dt el :
  isBytesOperand x = true -> isBytesOperand y = true ->
  Pending (GetType x) = false -> Pending (GetType y) = false ->
  GetType n = dt ->
  exists r, checkConcatOperator_fold fn op n x y dt el = (Done (Some r), el)
            /\ GetType r = dt.
Proof.
  intros Bx By Px Py Hn. unfold checkConcatOperator_fold.
  destruct (isValuer x && isValuer y) eqn:V.
  - apply andb_true_iff in V as [Vx Vy].
    destruct x; try discriminate; destruct y; try discriminate;
      cbn [GetType] in Px, Py;
      cbn [extractBytesValue bind ret]; rewrite ?Px, ?Py; cbn [bind ret];
      (eexists; split; [reflexivity|]); reflexivity.
  - exists n. split; [reflexivity | assumption].
Qed.

(** C8.  Width of a concatenation.  The two operands have been checked
    and have the fixed-size bytes types of [wa] and [wb] bytes.  If
    [wa + wb <= 32], the check returns a node whose type is the fixed-size
    bytes of exactly [wa + wb] bytes and appends nothing (the operands carry
    their types legitimately: they are no number, boolean or address
    constants; and the caller does not assign a different type).  If
    [wa + wb > 32], the check returns the failure sentinel and appends a
    type error (followed by a note), whatever the type action. *)
Theorem concat_fixed_width fuel s o b ty x y x' y' wa wb el el1 el2 :
  check fuel s o x None el = (Done (Some x'), el1) ->
  check fuel s o y None el1 = (Done (Some y'), el2) ->
  1 <= wa <= 32 -> 1 <= wb <= 32 ->
  GetType x' = FixedBytes wa -> GetType y' = FixedBytes wb ->
  (wa + wb <= 32 ->
   isBytesOperand x' = true -> isBytesOperand y' = true ->
   forall ta, accepts ta (FixedBytes (wa + wb)) = true ->
   exists r,
     check (S fuel) s o (ConcatOperatorNode b ty x y) ta el = (Done (Some r), el2)
     /\ GetType r = FixedBytes (wa + wb))
  /\
  (32 < wa + wb ->
   forall ta, exists note,
     check (S fuel) s o (ConcatOperatorNode b ty x y) ta el
     = (Done None,
        el2 ++ [mkError (Position b) (Length b) ErrorCategorySemantic
                  ErrorCodeTypeError ErrorSeverityError "CheckConcatOperator"
                  (MsgResultTooLong "binary operator ||"
                     (FixedBytes wa) (FixedBytes wb));
                note])
     /\ Severity note = ErrorSeverityNote).
Proof.
  intros Hx Hy Ha Hb Tx Ty.
  assert (Hinfer : forall n el0,
    checkConcatOperator_infer "CheckConcatOperator" "binary operator ||" n
      (FixedBytes wa) (FixedBytes wb) el0
    = if 32 <? wa + wb
      then (reportTooBig "CheckConcatOperator" "binary operator ||" n
              (FixedBytes wa) (FixedBytes wb) ;; ret (DataTypeBad, false)) el0
      else (Done (FixedBytes (wa + wb), true), el0)).
  { intros n el0. unfold checkConcatOperator_infer.
    rewrite !FixedBytes_not_pending, !FixedBytes_decompose by lia.
    rewrite Z.eqb_refl. cbn [negb].
    replace (wa - 1 + 1 + (wb - 1 + 1)) with (wa + wb) by lia.
    destruct (32 <? wa + wb) eqn:E; [reflexivity|].
    apply Z.ltb_ge in E. unfold FixedBytes, uint8.
    rewrite Z.mod_small by lia. reflexivity. }
  assert (Hstart : forall ta (P : outcome (option ExprNode) * ErrorList -> Prop),
    P (let (o1, el') :=
         checkConcatOperator_infer "CheckConcatOperator" "binary operator ||"
           (ConcatOperatorNode b ty x' y') (FixedBytes wa) (FixedBytes wb) el2 in
       match o1 with
       | Done (dt, ok) =>
           if negb ok then (Done None, el')
           else
             let (o2, el'') :=
               checkConcatOperator_fold "CheckConcatOperator" "binary operator ||"
                 (ConcatOperatorNode b dt x' y') x' y' dt el' in
             match o2 with
             | Done (Some r) =>
                 delegateTypeAction (check fuel s o) r "CheckConcatOperator" dt ta el''
             | Done None => (Done None, el'')
             | Panic => (Panic, el'')
             | OutOfFuel => (OutOfFuel, el'')
             end
       | Panic => (Panic, el')
       | OutOfFuel => (OutOfFuel, el')
       end) ->
    P (check (S fuel) s o (ConcatOperatorNode b ty x y) ta el)).
  { intros ta P HP. cbn [checkExpr].
    unfold checkConcatOperator, checkChildrenForBinaryOperator, bind,
      mustGetObject, mustGetSubject, ret, nilNode.
    cbn [GetObject GetSubject]. rewrite Hx. cbn [SetObject GetSubject]. rewrite Hy.
    cbn [SetSubject GetObject GetSubject]. rewrite Tx, Ty.
    rewrite validateBytesType_FixedBytes by lia. cbn [negb].
    rewrite validateBytesType_FixedBytes by lia. cbn [negb].
    rewrite !FixedBytes_not_pending by lia. cbn [negb andb].
    destruct (checkConcatOperator_infer _ _ _ _ _ _) as [[[dt ok]| |] el'] in HP |- *;
      try exact HP.
    destruct ok; cbn [negb] in HP |- *; [|exact HP].
    cbn [SetType GetType].
    destruct (checkConcatOperator_fold _ _ _ _ _ _ _) as [[[r|]| |] el''] in HP |- *;
      exact HP. }
  split.
  - intros Hsum Bx By ta Hta. apply Hstart.
    rewrite Hinfer. assert (E : (32 <? wa + wb) = false) by (apply Z.ltb_ge; lia).
    rewrite E. cbn [negb].
    destruct (concat_fold_typed "CheckConcatOperator" "binary operator ||"
                (ConcatOperatorNode b (FixedBytes (wa + wb)) x' y') x' y'
                (FixedBytes (wa + wb)) el2) as [r [Hr Tr]];
      try assumption; try reflexivity.
    { rewrite Tx. apply FixedBytes_not_pending. lia. }
    { rewrite Ty. apply FixedBytes_not_pending. lia. }
    rewrite Hr. exists r. split; [|assumption].
    unfold delegateTypeAction. rewrite FixedBytes_not_pending by lia.
    destruct ta; apply verifyTypeAction_accepts; assumption.
  - intros Hsum ta. apply Hstart.
    rewrite Hinfer. assert (E : (32 <? wa + wb) = true) by (apply Z.ltb_lt; lia).
    rewrite E. cbn. eexists. rewrite <- app_assoc. cbn [app].
    split; reflexivity.
Qed.
(** *** Zero among the decimals *)

Lemma stripTrailingZeros_IsZero k v e :
  IsZero (stripTrailingZeros k v e) = (v =? 0).
Proof.
  revert v e. induction k as [|k IH]; intros v e; cbn [stripTrailingZeros].
  - reflexivity.
  - destruct ((e <? 0) && (v mod 10 =? 0)) eqn:E; [|reflexivity].
    rewrite IH. apply andb_true_iff in E as [_ E]. apply Z.eqb_eq in E.
    destruct (Z.eqb_spec v 0) as [->|Hv].
    + reflexivity.
    + apply Z.eqb_neq. intros Hq.
      pose proof (Z.div_mod v 10 ltac:(lia)). lia.
Qed.

Lemma normalizeDecimal_IsZero d : IsZero (normalizeDecimal d) = IsZero d.
Proof. unfold normalizeDecimal. apply stripTrailingZeros_IsZero. Qed.

Lemma Rescale_zero d e : IsZero d = true -> value (Rescale d e) = 0.
Proof.
  unfold IsZero, Rescale. intros H. apply Z.eqb_eq in H.
  destruct (Z.leb_spec e (exp d)); cbn [value]; rewrite H; [reflexivity|].
  apply Z.quot_0_l. apply Z.pow_nonzero; lia.
Qed.

Lemma Cmp_zero_l z d :
  IsZero z = true ->
  Cmp z d = (0 ?= value d * 10 ^ (exp d - Z.min (exp z) (exp d))).
Proof.
  intros Hz. unfold Cmp. rewrite Rescale_zero by assumption.
  unfold Rescale. destruct (Z.leb_spec (Z.min (exp z) (exp d)) (exp d)); [reflexivity | lia].
Qed.

Lemma zero_not_below z d :
  IsZero z = true -> value d <= 0 -> LessThan z d = false.
Proof.
  intros Hz Hd. unfold LessThan. rewrite Cmp_zero_l by assumption.
  destruct (Z.compare_spec 0 (value d * 10 ^ (exp d - Z.min (exp z) (exp d))));
    try reflexivity.
  assert (0 <= 10 ^ (exp d - Z.min (exp z) (exp d))) by (apply Z.pow_nonneg; lia).
  nia.
Qed.

Lemma zero_not_above z d :
  IsZero z = true -> 0 <= value d -> GreaterThan z d = false.
Proof.
  intros Hz Hd. unfold GreaterThan. rewrite Cmp_zero_l by assumption.
  destruct (Z.compare_spec 0 (value d * 10 ^ (exp d - Z.min (exp z) (exp d))));
    try reflexivity.
  assert (0 <= 10 ^ (exp d - Z.min (exp z) (exp d))) by (apply Z.pow_nonneg; lia).
  nia.
Qed.


(** *** Numeric types *)

Lemma DecomposeDataType_range dt :
  0 <= fst (DecomposeDataType dt) < 256 /\ 0 <= snd (DecomposeDataType dt) < 256.
Proof.
  unfold DecomposeDataType, uint16. cbn [fst snd].
  pose proof (Z.mod_pos_bound dt 65536 ltac:(lia)) as Hm.
  rewrite Z.shiftr_div_pow2 by lia. change (2 ^ 8) with 256.
  change 255 with (Z.ones 8). rewrite Z.land_ones by lia. change (2 ^ 8) with 256.
  pose proof (Z.mod_pos_bound (dt mod 65536) 256 ltac:(lia)).
  split; [|assumption].
  split; [apply Z.div_pos; lia | apply Z.div_lt_upper_bound; lia].
Qed.
(* scratch: zero in range *)
Lemma GetMinMax_zero dt min max z :
  GetMinMax dt = Some (min, max) -> IsZero z = true ->
  LessThan z min = false /\ GreaterThan z max = false.
Proof.
  unfold GetMinMax. pose proof (DecomposeDataType_range dt) as [Hmaj Hmin].
  destruct (DecomposeDataType dt) as [major minor]. cbn [fst snd] in *.
  intros H Hz.
  destruct (major =? DataTypeMajorInt);
    [|destruct (major =? DataTypeMajorUint);
      [|destruct (IsFixedRange major) eqn:F;
        [|destruct (IsUfixedRange major) eqn:U; [|discriminate]]]];
    (match type of H with Some (?a, ?b) = Some _ =>
       assert (min = a) by congruence; assert (max = b) by congruence end; subst min max; clear H);
    (split; [apply zero_not_below | apply zero_not_above]); try assumption;
    unfold value.
  all: try (unfold IsFixedRange in F; apply andb_true_iff in F as [F _]; apply Z.leb_le in F).
  all: try (unfold IsUfixedRange in U; apply andb_true_iff in U as [U _]; apply Z.leb_le in U).
  all: unfold DataTypeMajorFixed, DataTypeMajorUfixed in *.
  all: match goal with
       | |- 0 <= 2 ^ ?k - 1 => pose proof (Z.pow_pos_nonneg 2 k); lia
       | |- - 2 ^ ?k <= 0 => pose proof (Z.pow_nonneg 2 k); lia
       | _ => lia
       end.
Qed.
Lemma isNumberType_GetMinMax dt :
  isNumberType dt = true -> exists min max, GetMinMax dt = Some (min, max).
Proof.
  unfold isNumberType, GetMinMax. destruct (DecomposeDataType dt) as [major minor].
  destruct (major =? DataTypeMajorInt); [eauto|].
  destruct (major =? DataTypeMajorUint); [eauto|].
  destruct (IsFixedRange major); [eauto|].
  destruct (IsUfixedRange major); [eauto|discriminate].
Qed.

Lemma isNumberType_cropDecimal dt d el :
  isNumberType dt = true -> exists c, cropDecimal dt d el = (Done c, el).
Proof.
  unfold isNumberType, cropDecimal, mustDecimalEncode, mustDecimalDecode,
    DecimalEncode, DecimalDecode, bind.
  destruct (DecomposeDataType dt) as [major minor].
  destruct (major =? DataTypeMajorInt); cbn [orb]; [eexists; reflexivity|].
  destruct (major =? DataTypeMajorUint); cbn [orb]; [eexists; reflexivity|].
  destruct (IsFixedRange major); cbn [orb]; [eexists; reflexivity|].
  destruct (IsUfixedRange major); cbn [orb]; [eexists; reflexivity|discriminate].
Qed.

Lemma isNumberType_major dt :
  isNumberType dt = true ->
  (fst (DecomposeDataType dt) =? DataTypeMajorBool) = false
  /\ (fst (DecomposeDataType dt) =? DataTypeMajorAddress) = false
  /\ (fst (DecomposeDataType dt) =? DataTypeMajorFixedBytes) = false
  /\ (fst (DecomposeDataType dt) =? DataTypeMajorDynamicBytes) = false
  /\ Pending dt = false.
Proof.
  unfold isNumberType. intros H.
  assert (Hp : Pending dt = false).
  { unfold Pending. destruct (Z.eqb_spec dt DataTypePending) as [->|]; [|reflexivity].
    discriminate H. }
  destruct (DecomposeDataType dt) as [major minor]. cbn [fst].
  unfold IsFixedRange, IsUfixedRange, DataTypeMajorInt, DataTypeMajorUint,
    DataTypeMajorFixed, DataTypeMajorUfixed, DataTypeMajorBool, DataTypeMajorAddress,
    DataTypeMajorFixedBytes, DataTypeMajorDynamicBytes in *.
  repeat split; try assumption; apply Z.eqb_neq; intros ->; discriminate H.
Qed.

Lemma validateNumberType_spec dt n fn op el :
  validateNumberType dt n fn op el
  = if Pending dt || isNumberType dt then (Done true, el)
    else (Done false,
          el ++ [mkError (GetPosition n) (GetLength n) ErrorCategorySemantic
                   ErrorCodeTypeError ErrorSeverityError fn
                   (MsgNotDefinedForType op dt)]).
Proof.
  unfold validateNumberType, isNumberType. destruct (Pending dt); [reflexivity|].
  cbn [negb orb]. destruct (DecomposeDataType dt) as [major minor].
  destruct ((major =? DataTypeMajorInt) || (major =? DataTypeMajorUint)
            || IsFixedRange major || IsUfixedRange major); reflexivity.
Qed.

(** *** Failing checks *)


(** *** A constant checked again under an assigned numeric type *)

Lemma safeDecimalRange_zero z :
  0 <= MaxIntegerPartDigits -> IsZero z = true ->
  safeDecimalRange MaxIntegerPartDigits z = true.
Proof.
  intros HM Hz. unfold safeDecimalRange, GreaterThanOrEqual, LessThanOrEqual.
  rewrite !Cmp_zero_l by assumption. cbn [Neg value exp].
  pose proof (Z.pow_pos_nonneg 10 MaxIntegerPartDigits ltac:(lia) HM) as Hp.
  set (k := 0 - Z.min (exp z) 0).
  assert (Hk : 0 <= 10 ^ k) by (apply Z.pow_nonneg; lia).
  apply andb_true_iff; split.
  - destruct (Z.compare_spec 0 (- (10 ^ MaxIntegerPartDigits - 1) * 10 ^ k));
      try reflexivity. nia.
  - destruct (Z.compare_spec 0 ((10 ^ MaxIntegerPartDigits - 1) * 10 ^ k));
      try reflexivity. nia.
Qed.

Lemma checkIntegerValue_zero b ty a V o el :
  0 <= MaxIntegerPartDigits -> IsZero V = true ->
  checkIntegerValue MaxIntegerPartDigits b ty a V o None el
  = (Done (Some (IntegerValueNode b ty a (normalizeDecimal V))), el)
  /\ forall dt, isNumberType dt = true ->
       checkIntegerValue MaxIntegerPartDigits b ty a V o (Some (typeActionAssign dt)) el
       = (Done (Some (IntegerValueNode b dt a (normalizeDecimal V))), el).
Proof.
  intros HM Hz.
  assert (Hsafe : safeDecimalRange MaxIntegerPartDigits (normalizeDecimal V) = true).
  { apply safeDecimalRange_zero; [assumption|]. rewrite normalizeDecimal_IsZero. exact Hz. }
  split.
  - unfold checkIntegerValue. rewrite Hsafe. reflexivity.
  - intros dt Hdt. unfold checkIntegerValue. rewrite Hsafe.
    cbn [negb checkIntegerValue_executeTypeAction].
    destruct (isNumberType_major dt Hdt) as (_ & Haddr & _ & _ & Hpend).
    destruct (isNumberType_GetMinMax dt Hdt) as (min & max & Hmm).
    assert (Hz1 : IsZero (normalizeDecimal V) = true)
      by (rewrite normalizeDecimal_IsZero; exact Hz).
    destruct (GetMinMax_zero dt min max _ Hmm Hz1) as [H1 H2].
    unfold isNumberType in Hdt.
    destruct (DecomposeDataType dt) as [major minor]. cbn [fst] in Haddr.
    rewrite Haddr, Hdt. unfold bind, mustGetMinMax. rewrite Hmm.
    cbn [ret]. rewrite H1, H2. cbn [orb].
    unfold finishInteger. rewrite Hpend. reflexivity.
Qed.



(** *** Division and modulo by a constant zero *)



(** *** NULL operands of a division *)

(** C10.  NULL takes precedence over the zero divisor.  In the fold of a
    division or modulo over two constants (numbers or typed NULLs) of which
    one is a typed NULL, the result is a NULL node with the span of the
    operator and nothing is appended: no division-by-zero diagnostic, even
    when the divisor is zero.  Through the entry point: NULL of a numeric
    type divided by the literal zero checks to NULL of that type, without
    any diagnostic. *)
Theorem null_precedes_zero_divisor :
  (forall fn op o eval n x y dt el,
     isNumberConstant x || isTypedNull x = true ->
     isNumberConstant y || isTypedNull y = true ->
     isTypedNull x || isTypedNull y = true ->
     checkArithmeticBinaryOperator_fold MaxIntegerPartDigits fn op o true eval
       n x y dt el
     = (Done (Some (NullValueNode (GetBase n) dt)), el))
  /\
  (forall fuel s o n b ty bx dt bs a V ta el,
     0 <= MaxIntegerPartDigits ->
     n = DivOperatorNode b ty (NullValueNode bx dt)
           (IntegerValueNode bs DataTypePending a V)
     \/ n = ModOperatorNode b ty (NullValueNode bx dt)
              (IntegerValueNode bs DataTypePending a V) ->
     isNumberType dt = true -> IsZero V = true -> accepts ta dt = true ->
     check (S (S fuel)) s o n ta el = (Done (Some (NullValueNode b dt)), el)).
Proof.
  split.
  - intros fn op o eval n x y dt el Hx Hy Hnull.
    unfold checkArithmeticBinaryOperator_fold, copySpan, SetToken, SetLength,
      SetPosition, GetPosition, GetLength, GetToken.
    destruct x; try discriminate Hx; destruct y; try discriminate Hy;
      try discriminate Hnull;
      cbn [isNumberConstant isTypedNull orb negb] in Hx, Hy, Hnull;
      cbn [isValuer andb extractNumberValue bind ret];
      repeat match goal with
             | H : negb (Pending ?t) = true |- _ =>
                 apply negb_true_iff in H; rewrite H
             end;
      cbn; rewrite ?base_eta; reflexivity.
  - intros fuel s o n b ty bx dt bs a V ta el HM Hn Hdt Hz Hta.
    destruct (isNumberType_major dt Hdt) as (_ & _ & _ & _ & Hpend).
    destruct (checkIntegerValue_zero bs DataTypePending a V o el HM Hz) as [Hnil _].
    assert (Hz1 : IsZero (normalizeDecimal V) = true)
      by (rewrite normalizeDecimal_IsZero; exact Hz).
    destruct (checkIntegerValue_zero bs DataTypePending a (normalizeDecimal V) o el HM Hz1)
      as [_ Hassign].
    specialize (Hassign dt Hdt).
    destruct Hn as [-> | ->]; cbn [checkExpr];
      unfold checkDivOperator, checkModOperator, checkArithmeticBinaryOperator,
        checkChildrenForBinaryOperator, bind, mustGetObject, mustGetSubject, ret, nilNode;
      cbn [GetObject GetSubject checkExpr checkNullValue SetObject SetSubject ret];
      rewrite Hnil; cbn [SetSubject GetObject GetSubject GetType];
      change (Pending DataTypePending) with true; cbv iota;
      rewrite validateNumberType_spec, Hdt, orb_true_r; cbn [negb];
      rewrite validateNumberType_spec; change (Pending DataTypePending) with true;
      cbn [negb orb];
      unfold inferBinaryOperatorType, bind, mustGetObject, mustGetSubject, ret,
        newTypeActionAssign;
      cbn [GetObject GetSubject GetType]; rewrite Hpend;
      change (Pending DataTypePending) with true;
      cbn [negb andb checkExpr]; rewrite Hassign;
      cbn [SetSubject SetType GetObject GetSubject GetType negb aliasAfterCheck];
      unfold checkArithmeticBinaryOperator_fold, bind, ret;
      cbn [isValuer andb extractNumberValue]; rewrite Hpend;
      cbn; unfold delegateTypeAction; rewrite Hpend;
      (destruct ta; rewrite verifyTypeAction_accepts by assumption;
       unfold GetPosition, GetLength, GetToken; cbn [GetBase];
       rewrite base_eta; reflexivity).
Qed.

(** *** The slips of the code, for all inputs *)

(** The overflow warning of the arithmetic fold does not depend on the
    range test: in permissive mode it is appended for a result inside the
    range as well. *)
Lemma calc_warns_in_range n fn o dt eval v1 v2 r min max el :
  eval v1 v2 = Some r ->
  isNumberType dt = true ->
  GetMinMax dt = Some (min, max) ->
  LessThan r min || GreaterThan r max = false ->
  exists cropped res rest,
    checkArithmeticBinaryOperator_calc MaxIntegerPartDigits n fn o dt eval v1 v2 el
    = (Done res,
       el ++ mkError (GetPosition n) (GetLength n) ErrorCategoryNil ErrorCodeNil
               ErrorSeverityWarning fn
               (MsgOverflowsConverted (GetToken n) r dt cropped) :: rest).
Proof.
  intros He Hdt Hmm Hin. unfold checkArithmeticBinaryOperator_calc. rewrite He.
  destruct (isNumberType_major dt Hdt) as (_ & _ & _ & _ & Hpend).
  rewrite Hpend. cbn [negb]. unfold bind at 1. unfold mustGetMinMax. rewrite Hmm.
  cbn [ret]. rewrite Hin.
  destruct (isNumberType_cropDecimal dt r el Hdt) as [c Hc].
  unfold bind, elAppendOverflowWarning, Append. rewrite Hc.
  exists c.
  destruct (safeDecimalRange MaxIntegerPartDigits (normalizeDecimal c)); cbn.
  - exists (normalizeDecimal c, true), []. reflexivity.
  - eexists _, [_]. rewrite <- app_assoc. reflexivity.
Qed.

(** The type inferred for a bytes constant under infer-with-major of the
    fixed-size bytes is one byte wider than the constant, so the assignment
    that follows always fails. *)
Lemma checkBytesValue_infer_fixed b ty V o el :
  1 <= len V <= 32 ->
  checkBytesValue b ty V o (Some (typeActionInferWithMajor DataTypeMajorFixedBytes)) el
  = (Done None,
     el ++ [mkError (Position b) (Length b) ErrorCategorySemantic ErrorCodeTypeError
              ErrorSeverityError "CheckBytesValue"
              (MsgBytesHasLength (FixedBytes (len V + 1)) V (len V))]).
Proof.
  intros HV. unfold checkBytesValue. cbn [checkBytesValue_executeTypeAction].
  change (DataTypeMajorFixedBytes =? DataTypeMajorFixedBytes) with true. cbv iota.
  assert (E : (len V <? 1) || (32 <? len V) = false).
  { apply orb_false_iff. split; [apply Z.ltb_ge | apply Z.ltb_ge]; lia. }
  rewrite E. unfold newTypeActionAssign, uint8. rewrite Z.mod_small by lia.
  replace (ComposeDataType DataTypeMajorFixedBytes (len V))
    with (FixedBytes (len V + 1)) by (unfold FixedBytes; f_equal; lia).
  rewrite FixedBytes_decompose by lia.
  change (DataTypeMajorFixedBytes =? DataTypeMajorDynamicBytes) with false.
  change (DataTypeMajorFixedBytes =? DataTypeMajorFixedBytes) with true. cbv iota.
  assert (E' : (len V =? len V + 1 - 1 + 1) = false) by (apply Z.eqb_neq; lia).
  rewrite E'. reflexivity.
Qed.

(** No unsigned fixed-point type passes the validation of ordered types:
    the list of accepted categories names the signed family twice. *)
Lemma validateOrderedType_ufixed major minor n fn op el :
  IsUfixedRange major = true -> 0 <= minor < 256 ->
  validateOrderedType (ComposeDataType major minor) n fn op el
  = (Done false,
     el ++ [mkError (GetPosition n) (GetLength n) ErrorCategorySemantic
              ErrorCodeTypeError ErrorSeverityError fn
              (MsgNotDefinedForType op (ComposeDataType major minor))]).
Proof.
  intros Hu Hminor. unfold validateOrderedType.
  assert (Hmajor : 48 <= major <= 79).
  { unfold IsUfixedRange, DataTypeMajorUfixed in Hu.
    apply andb_true_iff in Hu as [H1 H2]. apply Z.leb_le in H1, H2. lia. }
  assert (Hp : Pending (ComposeDataType major minor) = false).
  { unfold Pending. rewrite ComposeDataType_add by lia. apply Z.eqb_neq.
    change DataTypePending with 0. lia. }
  rewrite Hp, DecomposeDataType_Compose by lia. cbn [negb].
  assert (E : (major =? DataTypeMajorBool) || (major =? DataTypeMajorAddress)
              || (major =? DataTypeMajorInt) || (major =? DataTypeMajorUint)
              || (major =? DataTypeMajorFixedBytes)
              || (major =? DataTypeMajorDynamicBytes)
              || IsFixedRange major || IsFixedRange major = false).
  { unfold IsFixedRange, DataTypeMajorBool, DataTypeMajorAddress, DataTypeMajorInt,
      DataTypeMajorUint, DataTypeMajorFixedBytes, DataTypeMajorDynamicBytes,
      DataTypeMajorFixed.
    repeat (apply orb_false_iff; split);
      try (apply Z.eqb_neq; lia);
      (apply andb_false_iff; right; apply Z.leb_gt; lia). }
  rewrite E. reflexivity.
Qed.

(** The failure branch of the decimal inference: a constant with a
    fractional part that is below the minimum of the 128-bit fixed-point
    type is cropped with a warning, and then the check fails all the same. *)
Lemma checkDecimalValue_infer_below_min b ty V o min max el :
  let V1 := normalizeDecimal V in
  let dt := ComposeDataType (uint8 (DataTypeMajorFixed + uint8 (128 / 8 - 1))) (uint8 18) in
  safeDecimalRange MaxIntegerPartDigits V1 = true ->
  Equal V1 (Truncate V1 0) = false ->
  GetMinMax dt = Some (min, max) ->
  LessThan V1 min = true ->
  hasOption o CheckWithSafeMath = false ->
  exists cropped,
    checkDecimalValue MaxIntegerPartDigits b ty V o (Some typeActionInferDefault) el
    = (Done None,
       el ++ [mkError (Position b) (Length b) ErrorCategoryNil ErrorCodeNil
                ErrorSeverityWarning "CheckDecimalValue"
                (MsgOverflowsConverted (Token b) V1 dt cropped)]).
Proof.
  intros V1 dt Hsafe Hfrac Hmm Hlt Hperm. unfold checkDecimalValue.
  fold V1. rewrite Hsafe, Hfrac. cbn [negb checkDecimalValue_executeTypeAction].
  unfold checkDecimalValue_infer. fold dt.
  unfold bind at 1 2. unfold mustGetMinMax. rewrite Hmm. cbn [ret].
  rewrite Hlt, Hperm.
  assert (Hdt : isNumberType dt = true) by reflexivity.
  destruct (isNumberType_cropDecimal dt V1 el Hdt) as [c Hc].
  unfold bind. rewrite Hc. exists c. reflexivity.
Qed.

(** The address node that replaces an address literal has the span of a
    fresh node, whatever the span of the literal. *)
Lemma checkIntegerValue_address_span b ty V o el :
  safeDecimalRange MaxIntegerPartDigits (normalizeDecimal V) = true ->
  exists bytes,
    checkIntegerValue MaxIntegerPartDigits b ty true V o
      (Some (typeActionAssign DataTypeAddress)) el
    = (Done (Some (AddressValueNode emptyBase bytes)), el).
Proof.
  intros Hsafe. unfold checkIntegerValue. rewrite Hsafe.
  cbn [negb checkIntegerValue_executeTypeAction].
  change (DecomposeDataType DataTypeAddress) with (DataTypeMajorAddress, 0).
  cbv iota. change (DataTypeMajorAddress =? DataTypeMajorAddress) with true.
  cbn [negb]. unfold bind, mustDecimalEncode, DecimalEncode.
  change (DecomposeDataType (ComposeDataType DataTypeMajorUint (uint8 (160 / 8 - 1))))
    with (DataTypeMajorUint, 19).
  cbv iota. change ((DataTypeMajorUint =? DataTypeMajorInt)
                    || (DataTypeMajorUint =? DataTypeMajorUint)) with true.
  cbv iota. cbn [ret]. eexists. reflexivity.
Qed.

(** The fold of [<=] over two integer literals is the test of
    greater-or-equal on their values. *)
Lemma lessOrEqual_folds_greaterOrEqual fuel s o b bx ax Vx bs a_s Vs el :
  safeDecimalRange MaxIntegerPartDigits (normalizeDecimal Vx) = true ->
  safeDecimalRange MaxIntegerPartDigits (normalizeDecimal Vs) = true ->
  check (S (S fuel)) s o
    (LessOrEqualOperatorNode b
       (IntegerValueNode bx DataTypePending ax Vx)
       (IntegerValueNode bs DataTypePending a_s Vs)) None el
  = (Done (Some (BoolValueNode b
                   (NewBoolValueFromBool
                      (GreaterThanOrEqual (normalizeDecimal Vx) (normalizeDecimal Vs))))),
     el).
Proof.
  intros Hx Hs. cbn [checkExpr].
  unfold checkLessOrEqualOperator, checkRelationalOperator,
    checkChildrenForBinaryOperator, bind, mustGetObject, mustGetSubject, ret.
  cbn [GetObject GetSubject SetObject SetSubject].
  unfold checkIntegerValue. rewrite Hx. cbn [negb checkIntegerValue_executeTypeAction].
  unfold finishInteger, ret. cbn [SetObject GetSubject]. rewrite Hs.
  cbn [negb checkIntegerValue_executeTypeAction SetSubject GetObject GetSubject GetType].
  change (Pending DataTypePending) with true. cbv iota.
  unfold validateOrderedType, inferBinaryOperatorType, bind, mustGetObject,
    mustGetSubject, ret.
  change (Pending DataTypePending) with true.
  cbn [negb andb GetObject GetSubject GetType aliasAfterCheck isValuer].
  change (Pending DataTypePending) with true.
  cbn. unfold newBoolValueNode, GetPosition, GetLength, GetToken. cbn [GetBase].
  rewrite base_eta. reflexivity.
Qed.

End Properties.

(* ================================================================== *)
(** ** The properties at concrete inputs *)

(** [FALSE AND NULL] folds to False and [NULL OR TRUE] folds to True, the
    NULL being typed as a boolean. *)
Lemma and_or_absorb_unknown_witness :
  example.run 2 [] example.permissive example.falseAndNull None []
  = (Done (Some (BoolValueNode (example.span 0 "FALSE AND NULL") BoolValueFalse)), [])
  /\ example.run 2 [] example.permissive example.nullOrTrue None []
     = (Done (Some (BoolValueNode (example.span 0 "NULL OR TRUE") BoolValueTrue)), []).
Proof.
  split.
  - apply (and_or_absorb_unknown example.digits example.digits 1 [] example.permissive
             (example.span 0 "FALSE AND NULL")
             (BoolValueNode (example.span 0 "FALSE") BoolValueFalse) (example.boolNull 10)
             (BoolValueNode (example.span 0 "FALSE") BoolValueFalse) (example.boolNull 10)
             None [] [] []); try reflexivity.
    left. reflexivity.
  - apply (and_or_absorb_unknown example.digits example.digits 1 [] example.permissive
             (example.span 0 "NULL OR TRUE")
             (example.boolNull 0) (BoolValueNode (example.span 8 "TRUE") BoolValueTrue)
             (example.boolNull 0) (BoolValueNode (example.span 8 "TRUE") BoolValueTrue)
             None [] [] []); try reflexivity.
    right. reflexivity.
Defined.

(** With columns [a], [b], [c] of 2, 30 and 31 bytes: [a || b] has the
    type of 32 bytes, and [a || c] is rejected. *)
Lemma concat_fixed_width_witness :
  (exists r,
     example.run 2 example.bytesTable example.permissive example.aConcatB None []
     = (Done (Some r), [])
     /\ GetType r = FixedBytes 32)
  /\ (exists note,
        example.run 2 example.bytesTable example.permissive example.aConcatC None []
        = (Done None,
           [] ++ [mkError 0 6 ErrorCategorySemantic ErrorCodeTypeError
                    ErrorSeverityError "CheckConcatOperator"
                    (MsgResultTooLong "binary operator ||" (FixedBytes 2) (FixedBytes 31));
                  note])
        /\ Severity note = ErrorSeverityNote).
Proof.
  split.
  - apply (proj1 (concat_fixed_width example.digits example.digits 1 example.bytesTable
                    example.permissive (example.span 0 "a || b") DataTypePending
                    (example.column 0 "a") (example.column 5 "b")
                    (example.checkedColumn 0 "a" 0 example.bytes2)
                    (example.checkedColumn 5 "b" 1 example.bytes30)
                    2 30 [] [] [] eq_refl eq_refl ltac:(lia) ltac:(lia) eq_refl eq_refl));
      try reflexivity; lia.
  - apply (proj2 (concat_fixed_width example.digits example.digits 1 example.bytesTable
                    example.permissive (example.span 0 "a || c") DataTypePending
                    (example.column 0 "a") (example.column 5 "c")
                    (example.checkedColumn 0 "a" 0 example.bytes2)
                    (example.checkedColumn 5 "c" 2 example.bytes31)
                    2 31 [] [] [] eq_refl eq_refl ltac:(lia) ltac:(lia) eq_refl eq_refl));
      lia.
Defined.


(** [NULL / 0], the NULL typed as an 8-bit integer, checks to NULL; so
    does the fold alone, even where the quotient would abort. *)
Lemma null_precedes_zero_divisor_witness :
  checkArithmeticBinaryOperator_fold example.digits
    "CheckDivOperator" "binary operator /" example.permissive true
    (fun _ _ => None) example.nullDivZero
    (example.int8Null 0)
    (IntegerValueNode (example.span 7 "0") example.int8 false (New 0 0))
    example.int8 []
  = (Done (Some (NullValueNode (example.span 0 "NULL / 0") example.int8)), [])
  /\ example.run 2 [] example.permissive example.nullDivZero None []
     = (Done (Some (NullValueNode (example.span 0 "NULL / 0") example.int8)), []).
Proof.
  split.
  - apply (proj1 (null_precedes_zero_divisor example.digits example.digits)); reflexivity.
  - apply (proj2 (null_precedes_zero_divisor example.digits example.digits) 0%nat []
             example.permissive example.nullDivZero
             (example.span 0 "NULL / 0") DataTypePending (example.span 0 "NULL")
             example.int8 (example.span 7 "0") false (New 0 0) None []);
      try reflexivity.
    + unfold example.digits. lia.
    + left. reflexivity.
Defined.

(* ================================================================== *)
(** ** Where the code departs from its specification *)

(** C1.  Permissive mode, the addition of 1 (already typed as an 8-bit
    integer) and the literal 2: the sum 3 lies inside [-128, 127], and the
    fold still appends the overflow warning ("3 overflows int8, converted to
    3").  The crop and its warning are written after the range test of the
    arithmetic fold, not inside it as in the negation. *)
Theorem add_in_range_appends_warning :
  GetMinMax example.int8 = Some (New (-128) 0, New 127 0)
  /\ LessThan (New 3 0) (New (-128) 0) || GreaterThan (New 3 0) (New 127 0) = false
  /\ example.run 2 [] example.permissive example.typedOnePlusTwo None []
     = (Done (Some (IntegerValueNode (example.span 0 "1 + 2") example.int8 false
                      (New 3 0))),
        [mkError 0 5 ErrorCategoryNil ErrorCodeNil ErrorSeverityWarning
           "CheckAddOperator"
           (MsgOverflowsConverted (list_byte_of_string "1 + 2") (New 3 0)
              example.int8 (New 3 0))]).
Proof. split; [|split]; vm_compute; reflexivity. Qed.

(** C2.  [1 <= 2] folds to False and [2 <= 1] folds to True: the decimal
    comparison of [<=] is greater-or-equal.  [TRUE < FALSE] folds to True:
    the boolean comparison of [<] is greater-than. *)
Theorem less_or_equal_folds_as_greater_or_equal :
  LessThanOrEqual (New 1 0) (New 2 0) = true
  /\ example.run 2 [] example.permissive example.oneLessOrEqualTwo None []
     = (Done (Some (BoolValueNode (example.span 0 "1 <= 2") BoolValueFalse)), [])
  /\ LessThanOrEqual (New 2 0) (New 1 0) = false
  /\ example.run 2 [] example.permissive example.twoLessOrEqualOne None []
     = (Done (Some (BoolValueNode (example.span 0 "2 <= 1") BoolValueTrue)), [])
  /\ BoolValue_Less BoolValueTrue BoolValueFalse = BoolValueFalse
  /\ example.run 2 [] example.permissive example.trueLessFalse None []
     = (Done (Some (BoolValueNode (example.span 0 "TRUE < FALSE") BoolValueTrue)), []).
Proof. repeat (split; [vm_compute; reflexivity|]). vm_compute; reflexivity. Qed.

(** C3.  Permissive mode, type inference for the constant
    [-1000000000000000000000.5], which is below the minimum of the 128-bit
    fixed-point type: the check returns the failure sentinel and the only
    diagnostic is the overflow warning; no Error is appended. *)
Theorem decimal_crop_returns_nil_with_warning_only :
  exists w,
    example.run 2 [] example.permissive example.belowFixedMin
      (Some typeActionInferDefault) []
    = (Done None, [w])
    /\ Severity w = ErrorSeverityWarning
    /\ Prefix w = "CheckDecimalValue"%string.
Proof. eexists. split; [vm_compute; reflexivity | split; reflexivity]. Qed.

(** C4.  The two-byte constant [x'beef'] checked with infer-with-major of
    the fixed-size bytes is given the type of three bytes and rejected for
    having two; so [a || x'beef'] fails for a column [a] of two bytes. *)
Theorem fixed_bytes_literal_recheck_fails :
  checkExpr example.digits example.digits 1 [] example.permissive
    (BytesValueNode (example.span 5 "x'beef'") DataTypePending [xbe; xef])
    (Some (typeActionInferWithMajor DataTypeMajorFixedBytes)) []
  = (Done None,
     [mkError 5 7 ErrorCategorySemantic ErrorCodeTypeError ErrorSeverityError
        "CheckBytesValue" (MsgBytesHasLength example.bytes3 [xbe; xef] 2)])
  /\ example.run 2 example.bytesTable example.permissive example.aConcatBeef None []
     = (Done None,
        [mkError 5 7 ErrorCategorySemantic ErrorCodeTypeError ErrorSeverityError
           "CheckBytesValue" (MsgBytesHasLength example.bytes3 [xbe; xef] 2)]).
Proof. split; vm_compute; reflexivity. Qed.

(** C5.  [a < b] over two columns of the unsigned fixed-point type of 128
    bits and 18 digits is rejected ("is not defined for"), while over two
    columns of the signed type it passes. *)
Theorem ufixed_comparison_rejected :
  example.run 2 example.ufixedTable example.permissive example.aLessB None []
  = (Done None,
     [mkError 0 1 ErrorCategorySemantic ErrorCodeTypeError ErrorSeverityError
        "CheckLessOperator"
        (MsgNotDefinedForType "binary operator <" example.ufixed128x18)])
  /\ example.run 2 example.fixedTable example.permissive example.aLessB None []
     = (Done (Some (LessOperatorNode (example.span 0 "a < b")
                      (example.checkedColumn 0 "a" 0 example.fixed128x18)
                      (example.checkedColumn 4 "b" 1 example.fixed128x18))), []).
Proof. split; vm_compute; reflexivity. Qed.

(** C6.  An address literal at position 3 that is assigned the address
    type is replaced by an address node at position 0, of length 0 and with
    an empty token: the new node copies the span from itself. *)
Theorem address_literal_loses_span :
  GetBase example.addressLiteral
  = example.span 3 "0x00000000000000000000000000000000000004d2"
  /\ exists V,
       example.run 1 [] example.permissive example.addressLiteral
         (Some (typeActionAssign DataTypeAddress)) []
       = (Done (Some (AddressValueNode (mkNodeBase 0 0 []) V)), []).
Proof. split; [reflexivity | eexists; vm_compute; reflexivity]. Qed.
